(** * licensecheck.packageinfo: package information for installed and online packages

    A shallow embedding of [src/licensecheck/packageinfo.py].

    - Python [str] values are [string]s (sequences of 8-bit characters);
      [str.lower] is the ASCII case mapping.
    - Values whose type is only known at run time (parsed JSON and TOML)
      are [PyVal]s; subscripting, [in] and [int()] raise as Python does.
    - Exceptions are values of [exn]; a computation that may raise returns a
      [result]; a computation that also touches the caller's list objects or
      the network runs in the monad [M], over a [State] that holds the store
      of list objects and the log of the requests sent so far.
    - The installed-package metadata, the importable packages, the registry
      and the project files are the fields of an environment [Env], which
      stays the same during a run: a lookup repeated gives the same answer. *)

From Stdlib Require Import ZArith Ascii.
From Stdlib Require String.
From stdpp Require Import base option list gmap strings fin_maps.

Local Open Scope Z_scope.

(** ** Strings *)

Module Str.

(** [str.startswith(prefix)] *)
Definition startswith (s pre : string) : bool := String.prefix pre s.

(** [sep.join(parts)] *)
Definition join (sep : string) (parts : list string) : string :=
  String.concat sep parts.

(** [s.split(sep)] for a separator that is not empty: the text is scanned
    from the left, every occurrence of [sep] found closes the current
    segment, and the scan resumes after the occurrence.  [skip] counts the
    characters of a found occurrence that are still to be passed over,
    [cur] is the segment read so far. *)
Fixpoint split_go (sep : string) (skip : nat) (cur : string) (s : string)
  : list string :=
  match s with
  | EmptyString => [cur]
  | String c s' =>
      match skip with
      | S k => split_go sep k cur s'
      | O =>
          if String.prefix sep s
          then cur :: split_go sep (String.length sep - 1) EmptyString s'
          else split_go sep 0 (cur +:+ String c EmptyString) s'
      end
  end.

Definition split (s sep : string) : list string :=
  split_go sep 0 EmptyString s.

(** [parts[-1]] on the result of a split, which is never empty. *)
Definition last_segment (parts : list string) : string :=
  List.last parts EmptyString.

(** [sub in s] *)
Fixpoint contains (sub s : string) : bool :=
  String.prefix sub s ||
  match s with
  | EmptyString => false
  | String _ s' => contains sub s'
  end.

Definition is_upper (c : ascii) : bool :=
  (65 <=? nat_of_ascii c)%nat && (nat_of_ascii c <=? 90)%nat.

Definition lower_char (c : ascii) : ascii :=
  if is_upper c then ascii_of_nat (nat_of_ascii c + 32) else c.

(** [s.lower()] *)
Fixpoint lower (s : string) : string :=
  match s with
  | EmptyString => EmptyString
  | String c s' => String (lower_char c) (lower s')
  end.

(** Some character of [s] is an upper-case letter. *)
Fixpoint has_upper (s : string) : bool :=
  match s with
  | EmptyString => false
  | String c s' => is_upper c || has_upper s'
  end.

End Str.

Definition UNKNOWN : string := "UNKNOWN".

(** ** Classifier parser *)

(** The body of the loop of [licenseFromClassifierlist]: [licenses] is the
    list built so far, [val] the classifier at hand. *)
Definition classifier_step (licenses : list string) (val : string)
  : list string :=
  if Str.startswith val "License" then
    let lice := Str.last_segment (Str.split val " :: ") in
    if decide (lice ≠ "OSI Approved") then licenses ++ [lice] else licenses
  else licenses.

Definition licenseFromClassifierlist (classifiers : list string) : string :=
  let licenses := fold_left classifier_step classifiers [] in
  if (0 <? length licenses)%nat then Str.join ", " licenses else UNKNOWN.

(** The labels as the specification words them: of the classifiers that begin
    with "License", the final segments, "OSI Approved" discarded. *)
Definition collected_labels (classifiers : list string) : list string :=
  filter (λ lice, lice ≠ "OSI Approved")
    ((λ val, Str.last_segment (Str.split val " :: "))
       <$> filter (λ val, Str.startswith val "License" = true) classifiers).

(** ** Exceptions and results *)

(** The exception classes that the module can meet.  A handler catches the
    classes it lists; classes that this enumeration does not name are
    [OtherError]s, which no handler of the module lists. *)
Inductive exn : Type :=
  | PackageNotFoundError
  | ModuleNotFoundError
  | TypeError
  | ValueError
  | KeyError (key : string)
  | IndexError
  | AttributeError
  | ConnectionError
  | Timeout
  | JSONDecodeError
  | OtherError (cls : string).

Global Instance exn_eq_dec : EqDecision exn.
Proof. solve_decision. Defined.

Inductive result (A : Type) : Type :=
  | Ok (a : A)
  | Raise (e : exn).
Arguments Ok {A} a.
Arguments Raise {A} e.

Global Instance result_ret : MRet result := λ A a, Ok a.
Global Instance result_bind : MBind result := λ A B f r,
  match r with
  | Ok a => f a
  | Raise e => Raise e
  end.
Global Instance result_fmap : FMap result := λ A B f r,
  match r with
  | Ok a => Ok (f a)
  | Raise e => Raise e
  end.

(** ** Run-time values *)

(** A parsed JSON or TOML value.  Numbers are integers; an object keeps its
    members in order, and a key is looked up at its first occurrence. *)
#[warnings="-register-all"]
Inductive PyVal : Type :=
  | PNone
  | PBool (b : bool)
  | PInt (n : Z)
  | PStr (s : string)
  | PList (xs : list PyVal)
  | PDict (kvs : list (string * PyVal)).

Fixpoint assoc {A : Type} (k : string) (kvs : list (string * A)) : option A :=
  match kvs with
  | [] => None
  | (k', v) :: rest => if decide (k' = k) then Some v else assoc k rest
  end.

(** [v[key]] for a string key. *)
Definition getitem (v : PyVal) (key : string) : result PyVal :=
  match v with
  | PDict kvs =>
      match assoc key kvs with
      | Some x => Ok x
      | None => Raise (KeyError key)
      end
  | _ => Raise TypeError
  end.

Fixpoint last_char (s : string) : option string :=
  match s with
  | EmptyString => None
  | String c EmptyString => Some (String c EmptyString)
  | String _ s' => last_char s'
  end.

(** [v[-1]] *)
Definition getitem_last (v : PyVal) : result PyVal :=
  match v with
  | PList xs =>
      match last xs with
      | Some x => Ok x
      | None => Raise IndexError
      end
  | PStr s =>
      match last_char s with
      | Some c => Ok (PStr c)
      | None => Raise IndexError
      end
  | PDict _ => Raise (KeyError "-1")
  | _ => Raise TypeError
  end.

(** [key in v] for a string key: a member of a dict, an element of a list,
    a substring of a string. *)
Definition py_contains (key : string) (v : PyVal) : result bool :=
  match v with
  | PDict kvs => Ok (bool_decide (is_Some (assoc key kvs)))
  | PList xs =>
      Ok (existsb (λ x, match x with
                        | PStr s => bool_decide (s = key)
                        | _ => false
                        end) xs)
  | PStr s => Ok (Str.contains key s)
  | _ => Raise TypeError
  end.

Fixpoint chars (s : string) : list string :=
  match s with
  | EmptyString => []
  | String c s' => String c EmptyString :: chars s'
  end.

(** The strings that [for val in v] yields when every [val] is then used as a
    string, as [licenseFromClassifierlist] does with [val.startswith]: a value
    that cannot be iterated raises [TypeError], an element that is not a string
    raises [AttributeError]. *)
Definition iter_strings (v : PyVal) : result (list string) :=
  match v with
  | PList xs =>
      mapM (λ x, match x with
                 | PStr s => Ok s
                 | _ => Raise AttributeError
                 end) xs
  | PStr s => Ok (chars s)
  | PDict kvs => Ok (kvs.*1)
  | _ => Raise TypeError
  end.

(** ** Data model *)

Record PackageInfo : Type := mkPackageInfo {
  name : string;
  version : PyVal;
  namever : string;
  home_page : PyVal;
  author : PyVal;
  size : Z;
  license : PyVal;
}.

(** The metadata of an installed distribution: its header fields in order. *)
Definition PackageMetadata : Type := list (string * string).

(** [pkgMetadata.get(field, default)]: the first header whose name is
    [field], header names compared without regard to case. *)
Definition md_get (md : PackageMetadata) (field default : string) : string :=
  match find (λ kv, bool_decide (Str.lower kv.1 = Str.lower field)) md with
  | Some kv => kv.2
  | None => default
  end.

(** One entry of [path.glob("**/*")]. *)
Record DirEntry : Type := mkDirEntry {
  entry_str : string;
  is_file : bool;
  st_size : Z;
}.

(** A traversable package location, given by the entries its glob yields. *)
Record Path : Type := mkPath { glob_all : list DirEntry }.

(** A registry response; [json] is the outcome of [request.json()]. *)
Record Response : Type := mkResponse { json : result PyVal }.

(** A parsed [setup.cfg]: option names are stored in lower case. *)
Record ConfigParser : Type := mkConfigParser {
  cfg_defaults : list (string * string);
  cfg_sections : list (string * list (string * string));
}.

(** The dictionaries that [getClassifiersLicense] returns: the attribute
    dictionary of a section proxy, or a plain value. *)
Inductive MetaData : Type :=
  | ProxyDict (parser : ConfigParser) (section : string)
  | Plain (v : PyVal).

(** ** Environment *)

Record Env : Type := mkEnv {
  (** [importlib.metadata.metadata(name)] *)
  metadata : string → result PackageMetadata;
  (** [importlib.resources.files(name)] *)
  files : string → result Path;
  (** [requests.get(url, timeout=60)] *)
  requests_get : string → result Response;
  (** [int(text)] *)
  int_of_text : string → result Z;
  (** [format(v)] of a value that is not a string *)
  format_value : PyVal → string;
  (** [setup.cfg]: [None] when the file does not exist, else the outcome of
      reading it *)
  setup_cfg : option (result ConfigParser);
  (** [pyproject.toml]: [None] when the file does not exist, else the outcome
      of [read_text] *)
  pyproject_toml : option (result string);
  (** [tomli.loads(text)], the top-level table *)
  tomli_loads : string → result (list (string * PyVal));
}.

(** ** State and effects *)

Definition loc : Type := positive.

Record State : Type := mkState {
  heap : gmap loc (list string);
  net_log : list string;
}.

Definition M (A : Type) : Type := State → result A * State.

Global Instance M_ret : MRet M := λ A a s, (Ok a, s).
Global Instance M_bind : MBind M := λ A B f m s,
  match m s with
  | (Ok a, s') => f a s'
  | (Raise e, s') => (Raise e, s')
  end.

Definition raise {A : Type} (e : exn) : M A := λ s, (Raise e, s).

Definition lift {A : Type} (r : result A) : M A := λ s, (r, s).

(** [try: body except <classes>: handler]; the effects of [body] up to the
    exception stay. *)
Definition try_except {A : Type} (body : M A) (catches : exn → bool)
    (handler : M A) : M A := λ s,
  match body s with
  | (Ok a, s') => (Ok a, s')
  | (Raise e, s') => if catches e then handler s' else (Raise e, s')
  end.

(** The contents of the list object at [l]; every reference held by the
    program denotes an object of the store. *)
Definition read (l : loc) : M (list string) := λ s,
  match heap s !! l with
  | Some xs => (Ok xs, s)
  | None => (Raise (OtherError "unbound reference"), s)
  end.

Definition write (l : loc) (xs : list string) : M unit := λ s,
  (Ok (), mkState (<[l := xs]> (heap s)) (net_log s)).

(** A GET request: logged, then answered by the environment. *)
Definition http_get (E : Env) (url : string) : M Response := λ s,
  (requests_get E url, mkState (heap s) (net_log s ++ [url])).

(** [xs.remove(x)]: the first occurrence goes; [None] when there is none. *)
Fixpoint list_remove (x : string) (xs : list string) : option (list string) :=
  match xs with
  | [] => None
  | y :: ys => if decide (y = x) then Some ys else (y ::.) <$> list_remove x ys
  end.

Definition remove (l : loc) (x : string) : M unit :=
  xs ← read l;
  match list_remove x xs with
  | Some xs' => write l xs'
  | None => raise ValueError
  end.

(** [for x in xs: body x] *)
Fixpoint for_each {A : Type} (xs : list A) (body : A → M unit) : M unit :=
  match xs with
  | [] => mret ()
  | x :: rest => _ ← body x; for_each rest body
  end.

(** ** Size of an installed package *)

Definition pypi_url (pkg : string) : string :=
  "https://pypi.org/pypi/" +:+ pkg +:+ "/json".

(** [int(v)] *)
Definition py_int (E : Env) (v : PyVal) : result Z :=
  match v with
  | PInt n => Ok n
  | PBool b => Ok (if b then 1 else 0)
  | PStr s => int_of_text E s
  | _ => Raise TypeError
  end.

(** [int(response["urls"][-1]["size"])] *)
Definition registry_size (E : Env) (response : PyVal) : result Z :=
  urls ← getitem response "urls";
  entry ← getitem_last urls;
  sz ← getitem entry "size";
  py_int E sz.

(** The sum over the files of the tree that are not under [__pycache__]. *)
Definition local_size (path : Path) : Z :=
  foldr Z.add 0
    (st_size <$> filter (λ f, is_file f && negb (Str.contains "__pycache__" (entry_str f)) = true)
                   (glob_all path)).

Definition getModuleSize (E : Env) (path : Path) (name : string) : M Z :=
  let size := local_size path in
  if 0 <? size then mret size
  else
    request ← http_get E (pypi_url name);
    response ← lift (json request);
    lift (registry_size E response).

(** ** Local resolver *)

Definition catches_TypeError (e : exn) : bool := bool_decide (e = TypeError).

Definition catches_not_found (e : exn) : bool :=
  bool_decide (e = PackageNotFoundError) || bool_decide (e = ModuleNotFoundError).

(** The statements under the outer [try] of [getPackagesFromLocal], up to the
    record that is appended. *)
Definition local_record (E : Env) (requirement : string) : M PackageInfo :=
  pkgMetadata ← lift (metadata E requirement);
  let lice :=
    licenseFromClassifierlist
      (snd <$> filter (λ kv, kv.1 = "Classifier") pkgMetadata) in
  let lice :=
    if decide (lice = UNKNOWN) then md_get pkgMetadata "License" UNKNOWN
    else lice in
  let homePage := md_get pkgMetadata "Home-page" UNKNOWN in
  let author := md_get pkgMetadata "Author" UNKNOWN in
  let name := md_get pkgMetadata "Name" UNKNOWN in
  let version := md_get pkgMetadata "Version" UNKNOWN in
  size ← try_except
           (packagePath ← lift (files E requirement);
            getModuleSize E packagePath name)
           catches_TypeError
           (mret 0);
  mret {| name := name;
          version := PStr version;
          namever := name +:+ "-" +:+ version;
          home_page := PStr homePage;
          author := PStr author;
          size := size;
          license := PStr lice |}.

(** One turn of the loop: the record is appended, or the name is passed over. *)
Definition local_step (E : Env) (pkgInfo : list PackageInfo)
    (requirement : string) : M (list PackageInfo) :=
  try_except
    (p ← local_record E requirement; mret (pkgInfo ++ [p]))
    catches_not_found
    (mret pkgInfo).

Fixpoint local_loop (E : Env) (requirements : list string)
    (pkgInfo : list PackageInfo) : M (list PackageInfo) :=
  match requirements with
  | [] => mret pkgInfo
  | requirement :: rest =>
      pkgInfo' ← local_step E pkgInfo requirement;
      local_loop E rest pkgInfo'
  end.

(** The function only iterates over its argument, so it takes the contents of
    the list. *)
Definition getPackagesFromLocal (E : Env) (requirements : list string)
  : M (list PackageInfo) :=
  local_loop E requirements [].

(** ** Remote resolver *)

Definition format_str (E : Env) (v : PyVal) : string :=
  match v with
  | PStr s => s
  | _ => format_value E v
  end.

(** The record built from a parsed response, fields in evaluation order. *)
Definition pypi_record (E : Env) (pkg : string) (response : PyVal)
  : result PackageInfo :=
  info ← getitem response "info";
  classifiers ← getitem info "classifiers";
  vals ← iter_strings classifiers;
  let licenseClassifier := licenseFromClassifierlist vals in
  version ← getitem info "version";
  homePage ← getitem info "home_page";
  author ← getitem info "author";
  size ← registry_size E response;
  lice ← (if decide (licenseClassifier ≠ UNKNOWN) then Ok (PStr licenseClassifier)
          else getitem info "license");
  Ok {| name := pkg;
        version := version;
        namever := pkg +:+ " " +:+ format_str E version;
        home_page := homePage;
        author := author;
        size := size;
        license := lice |}.

Definition pypi_step (E : Env) (pkgInfo : list PackageInfo) (pkg : string)
  : M (list PackageInfo) :=
  request ← http_get E (pypi_url pkg);
  response ← lift (json request);
  p ← lift (pypi_record E pkg response);
  mret (pkgInfo ++ [p]).

Fixpoint pypi_loop (E : Env) (requirements : list string)
    (pkgInfo : list PackageInfo) : M (list PackageInfo) :=
  match requirements with
  | [] => mret pkgInfo
  | pkg :: rest =>
      pkgInfo' ← pypi_step E pkgInfo pkg;
      pypi_loop E rest pkgInfo'
  end.

Definition packageInfoFromPypi (E : Env) (requirements : list string)
  : M (list PackageInfo) :=
  pypi_loop E requirements [].

(** ** Aggregator *)

(** [reqs] is the caller's list object: both resolvers read it, the loop in
    between removes from it. *)
Definition getPackages (E : Env) (reqs : loc) : M (list PackageInfo) :=
  requirements ← read reqs;
  localReqs ← getPackagesFromLocal E requirements;
  _ ← for_each localReqs (λ localReq, remove reqs (Str.lower (name localReq)));
  remaining ← read reqs;
  onlineReqs ← packageInfoFromPypi E remaining;
  mret (localReqs ++ onlineReqs).

(** ** Self-metadata reader *)

(** [option in config[section]] *)
Definition has_option (config : ConfigParser) (sec : list (string * string))
    (opt : string) : bool :=
  bool_decide (is_Some (assoc opt sec))
  || bool_decide (is_Some (assoc opt (cfg_defaults config))).

(** The [setup.cfg] branch: [Some d] when it returns [d], [None] when control
    goes on to the next [if]. *)
Definition from_setup_cfg (E : Env) : result (option MetaData) :=
  match setup_cfg E with
  | Some rd =>
      config ← rd;
      match assoc "metadata" (cfg_sections config) with
      | None => Raise (KeyError "metadata")
      | Some sec =>
          if has_option config sec "license"
          then Ok (Some (ProxyDict config "metadata"))
          else Ok None
      end
  | None => Ok None
  end.

(** The [pyproject.toml] branch, likewise. *)
Definition from_pyproject (E : Env) : result (option MetaData) :=
  match pyproject_toml E with
  | Some rd =>
      text ← rd;
      pyproject ← tomli_loads E text;
      tool ← getitem (PDict pyproject) "tool";
      has_poetry ← py_contains "poetry" tool;
      if has_poetry : bool then
        poetry ← getitem tool "poetry"; Ok (Some (Plain poetry))
      else
        has_flit ← py_contains "flit" tool;
        if has_flit : bool then
          flit ← getitem tool "flit";
          md ← getitem flit "metadata";
          Ok (Some (Plain md))
        else
          match assoc "project" pyproject with
          | Some PNone | None => Ok None
          | Some project => Ok (Some (Plain project))
          end
  | None => Ok None
  end.

Definition default_metadata : MetaData :=
  Plain (PDict [("classifiers", PList []); ("license", PStr "")]).

Definition getClassifiersLicense (E : Env) : result MetaData :=
  r ← from_setup_cfg E;
  match r with
  | Some d => Ok d
  | None =>
      r ← from_pyproject E;
      match r with
      | Some d => Ok d
      | None => Ok default_metadata
      end
  end.

(** ** Notions used in the statements *)

Definition empty_state : State := mkState ∅ [].

(** The record that the local resolver builds for a name, if it builds one:
    the environment does not change, so this depends on the name only. *)
Definition local_outcome (E : Env) (requirement : string) : option PackageInfo :=
  match (local_record E requirement empty_state).1 with
  | Ok p => Some p
  | Raise _ => None
  end.

Definition resolves_locally (E : Env) (requirement : string) : bool :=
  bool_decide (is_Some (local_outcome E requirement)).

Definition local_records (E : Env) (requirements : list string)
  : list PackageInfo :=
  omap (local_outcome E) requirements.

(** What the registry gives for a name: the request, the parse, the record. *)
Definition pypi_outcome (E : Env) (pkg : string) : result PackageInfo :=
  request ← requests_get E (pypi_url pkg);
  response ← json request;
  pypi_record E pkg response.

(** The names that the local resolver leaves to the remote one. *)
Definition unresolved (E : Env) (requirements : list string) : list string :=
  filter (λ r, resolves_locally E r = false) requirements.

(** The name under which the aggregator removes a local record. *)
Definition removal_key (p : PackageInfo) : string := Str.lower (name p).

(** [for n in names: xs.remove(n)] on the contents alone; [None] when some
    removal finds nothing to remove. *)
Fixpoint remove_all (names xs : list string) : option (list string) :=
  match names with
  | [] => Some xs
  | n :: rest =>
      match list_remove n xs with
      | Some xs' => remove_all rest xs'
      | None => None
      end
  end.

(** A computation that leaves the store alone and whose outcome does not
    depend on the state: it only adds [l] to the log. *)
Definition log_only {A : Type} (m : M A) (r : result A) (l : list string) : Prop :=
  ∀ s, m s = (r, mkState (heap s) (net_log s ++ l)).

(** [setup.cfg] is absent, or has a [metadata] section without a license. *)
Definition no_setup_license (E : Env) : Prop :=
  setup_cfg E = None
  ∨ ∃ config sec,
      setup_cfg E = Some (Ok config)
      ∧ assoc "metadata" (cfg_sections config) = Some sec
      ∧ has_option config sec "license" = false.

(** The reading of [pyproject.toml] as the top-level table [pyproject]. *)
Definition pyproject_is (E : Env) (pyproject : list (string * PyVal)) : Prop :=
  ∃ text, pyproject_toml E = Some (Ok text) ∧ tomli_loads E text = Ok pyproject.

(** The statement that with a [project] table and a [tool.poetry] table the
    [project] table is what comes back. *)
Definition project_table_wins : Prop :=
  ∀ (E : Env) (pyproject tool : list (string * PyVal)) (project poetry : PyVal),
    no_setup_license E →
    pyproject_is E pyproject →
    assoc "project" pyproject = Some project →
    assoc "tool" pyproject = Some (PDict tool) →
    assoc "poetry" tool = Some poetry →
    getClassifiersLicense E = Ok (Plain project).

(** ** Sample environments *)

Module Sample.

Definition ipython_metadata : PackageMetadata :=
  [("Metadata-Version", "2.1"); ("Name", "ipython"); ("Version", "8.12.0");
   ("Home-page", "https://ipython.org"); ("Author", "The IPython Development Team");
   ("License", "BSD-3-Clause");
   ("Classifier", "Framework :: IPython");
   ("Classifier", "License :: OSI Approved :: BSD License")].

Definition six_metadata : PackageMetadata :=
  [("Name", "six"); ("Version", "1.16.0"); ("License", "MIT");
   ("Classifier", "License :: OSI Approved")].

Definition hollow_metadata : PackageMetadata :=
  [("Name", "hollow"); ("Version", "0.1")].

Definition ipython_tree : Path :=
  mkPath [mkDirEntry "IPython/core" false 4096;
          mkDirEntry "IPython/__init__.py" true 5000;
          mkDirEntry "IPython/__pycache__/__init__.cpython-311.pyc" true 7000;
          mkDirEntry "IPython/core/display.py" true 1200].

(** A tree whose only file outside [__pycache__] is empty. *)
Definition hollow_tree : Path :=
  mkPath [mkDirEntry "hollow/__init__.py" true 0;
          mkDirEntry "hollow/__pycache__/__init__.cpython-311.pyc" true 150].

Definition registry_document (ver : string) (sz : Z) : PyVal :=
  PDict [("info", PDict [("author", PStr "A. Author");
                         ("classifiers", PList [PStr "License :: OSI Approved :: Apache Software License"]);
                         ("home_page", PStr "https://example.org");
                         ("license", PStr "Apache 2.0");
                         ("version", PStr ver)]);
         ("urls", PList [PDict [("size", PInt 10)]; PDict [("size", PInt sz)]])].

(** The metadata store answers to every spelling of [ipython]; only the
    package [IPython] can be imported; [six] is a module and not a package;
    the registry cannot be reached for [hollow], and answers with a text that
    is not JSON for [nosuchpkg]. *)
Definition env (pyproject : list (string * PyVal)) : Env :=
  {| metadata := λ n,
       if decide (Str.lower n = "ipython") then Ok ipython_metadata
       else if decide (n = "six") then Ok six_metadata
       else if decide (n = "hollow") then Ok hollow_metadata
       else Raise PackageNotFoundError;
     files := λ n,
       if decide (n = "IPython") then Ok ipython_tree
       else if decide (n = "six") then Raise TypeError
       else if decide (n = "hollow") then Ok hollow_tree
       else Raise ModuleNotFoundError;
     requests_get := λ url,
       if decide (url = pypi_url "hollow") then Raise ConnectionError
       else if decide (url = pypi_url "nosuchpkg") then Ok (mkResponse (Raise JSONDecodeError))
       else if decide (url = pypi_url "IPython") then Ok (mkResponse (Ok (registry_document "8.12.0" 800000)))
       else Ok (mkResponse (Ok (registry_document "2.31.0" 62574)));
     int_of_text := λ _, Raise ValueError;
     format_value := λ _, "";
     setup_cfg := None;
     pyproject_toml := Some (Ok "pyproject");
     tomli_loads := λ _, Ok pyproject |}.

Definition project_table : PyVal :=
  PDict [("name", PStr "demo"); ("license", PDict [("text", PStr "MIT")])].

Definition poetry_table : PyVal :=
  PDict [("name", PStr "demo"); ("license", PStr "GPL-3.0-only")].

Definition both_tables : list (string * PyVal) :=
  [("project", project_table); ("tool", PDict [("poetry", poetry_table)])].

Definition project_only : list (string * PyVal) :=
  [("build-system", PDict [("requires", PList [PStr "setuptools"])]);
   ("project", project_table)].

Definition state_with (l : loc) (xs : list string) : State :=
  mkState {[ l := xs ]} [].

End Sample.

(** ** The project's own license *)

(** The keys of the attribute dictionary of a section proxy: the parser, the
    section name and the three converters of a [ConfigParser]. *)
Definition proxy_attributes : list string :=
  ["_parser"; "_name"; "getint"; "getfloat"; "getboolean"].

(** [key in metaData] *)
Definition meta_contains (key : string) (metaData : MetaData) : result bool :=
  match metaData with
  | ProxyDict _ _ => Ok (bool_decide (key ∈ proxy_attributes))
  | Plain v => py_contains key v
  end.

(** [metaData.get(key, default)], for a [key] that is no attribute of a
    section proxy, as are the keys the module asks for; a value that is not a
    dict has no [get]. *)
Definition meta_get (metaData : MetaData) (key : string) (default : PyVal)
  : result PyVal :=
  match metaData with
  | ProxyDict _ _ => Ok default
  | Plain (PDict kvs) =>
      match assoc key kvs with
      | Some v => Ok v
      | None => Ok default
      end
  | Plain _ => Raise AttributeError
  end.

(** [metaData[key]], for such a [key]. *)
Definition meta_getitem (metaData : MetaData) (key : string) : result PyVal :=
  match metaData with
  | ProxyDict _ _ => Raise (KeyError key)
  | Plain v => getitem v key
  end.

(** [input] is the built-in of that name: the prompt, then the line read or
    the exception raised. *)
Definition getMyPackageLicense (E : Env) (input : string → result string)
  : result string :=
  metaData ← getClassifiersLicense E;
  classifiers ← meta_get metaData "classifiers" (PList []);
  vals ← iter_strings classifiers;
  let licenseClassifier := licenseFromClassifierlist vals in
  if decide (licenseClassifier ≠ UNKNOWN) then Ok licenseClassifier
  else
    has_license ← meta_contains "license" metaData;
    if has_license : bool then
      lice ← meta_getitem metaData "license";
      match lice with
      | PDict sub =>
          match assoc "text" sub with
          | Some PNone | None => Ok (format_str E lice)
          | Some text => Ok (format_str E text)
          end
      | _ => Ok (format_str E lice)
      end
    else input "Enter the project license".

(** ** Further notions used in the statements *)

(** No occurrence of [sep] in [cur +:+ s] begins at a character of [cur]. *)
Fixpoint no_start (sep cur s : string) : bool :=
  match cur with
  | EmptyString => true
  | String _ cur' => negb (String.prefix sep (cur +:+ s)) && no_start sep cur' s
  end.

(** ** Further sample environments *)

Module Demo.

(** The environment of [Sample] with other project files. *)
Definition with_project_files (setup : option (result ConfigParser))
    (pyproject : option (list (string * PyVal))) : Env :=
  {| metadata := metadata (Sample.env []);
     files := files (Sample.env []);
     requests_get := requests_get (Sample.env []);
     int_of_text := int_of_text (Sample.env []);
     format_value := λ _, "<repr>";
     setup_cfg := setup;
     pyproject_toml :=
       match pyproject with
       | Some _ => Some (Ok "pyproject")
       | None => None
       end;
     tomli_loads := λ _,
       match pyproject with
       | Some table => Ok table
       | None => Raise (OtherError "TOMLDecodeError")
       end |}.

(** The environment of [Sample] with another registry. *)
Definition with_registry (registry : string → result Response) : Env :=
  {| metadata := metadata (Sample.env []);
     files := files (Sample.env []);
     requests_get := registry;
     int_of_text := int_of_text (Sample.env []);
     format_value := format_value (Sample.env []);
     setup_cfg := None;
     pyproject_toml := None;
     tomli_loads := λ _, Raise (OtherError "TOMLDecodeError") |}.

(** The environment of [Sample] with another metadata store. *)
Definition with_metadata (store : string → result PackageMetadata) : Env :=
  {| metadata := store;
     files := files (Sample.env []);
     requests_get := requests_get (Sample.env []);
     int_of_text := int_of_text (Sample.env []);
     format_value := format_value (Sample.env []);
     setup_cfg := None;
     pyproject_toml := None;
     tomli_loads := λ _, Raise (OtherError "TOMLDecodeError") |}.

Definition setup_with_license : ConfigParser :=
  mkConfigParser [] [("metadata", [("name", "demo"); ("license", "MIT")]);
                     ("options", [("packages", "find:")])].

Definition setup_without_metadata : ConfigParser :=
  mkConfigParser [] [("options", [("packages", "find:")])].

Definition answer (prompt : string) : result string := Ok "Apache-2.0".

(** The document the registry serves for a name it does not know. *)
Definition not_found_document : PyVal := PDict [("message", PStr "Not Found")].

Definition info_table (with_label with_license : bool) : PyVal :=
  PDict ([("author", PStr "A. Author");
          ("classifiers",
           PList (if with_label then [PStr "License :: OSI Approved :: MIT License"]
                  else [PStr "Programming Language :: Python"]));
          ("home_page", PStr "https://example.org");
          ("version", PStr "1.0")]
         ++ if with_license then [("license", PStr "MIT")] else []).

Definition document (with_label with_license : bool) (urls : PyVal) : PyVal :=
  PDict [("info", info_table with_label with_license); ("urls", urls)].

Definition serve (doc : PyVal) (url : string) : result Response :=
  Ok (mkResponse (Ok doc)).

(** An answer with a license classifier and without the [license] key. *)
Definition flask_document : PyVal :=
  document true false (PList [PDict [("size", PInt 512)]]).

Definition flask_record : PackageInfo :=
  {| name := "flask"; version := PStr "1.0"; namever := "flask 1.0";
     home_page := PStr "https://example.org"; author := PStr "A. Author";
     size := 512; license := PStr "MIT License" |}.

End Demo.

(** * Properties *)

(** ** Sample runs *)

Example split_ex1 :
  Str.split "License :: OSI Approved :: MIT License" " :: "
  = ["License"; "OSI Approved"; "MIT License"].
Proof. reflexivity. Qed.

Example split_ex2 : Str.split "a :: " " :: " = ["a"; ""].
Proof. reflexivity. Qed.

Example split_ex3 : Str.split " :: :: " " :: " = [""; ":: "].
Proof. reflexivity. Qed.

Example split_ex4 : Str.split "" " :: " = [""].
Proof. reflexivity. Qed.

Example license_ex1 :
  licenseFromClassifierlist ["License :: OSI Approved"; "License :: MIT"] = "MIT".
Proof. reflexivity. Qed.

Example license_ex2 :
  licenseFromClassifierlist
    ["Programming Language :: Python"; "License :: A"; "License :: OSI Approved :: B"]
  = "A, B".
Proof. reflexivity. Qed.

Example lower_ex : Str.lower "IPython-8_X" = "ipython-8_x".
Proof. reflexivity. Qed.

Example local_ex :
  getPackagesFromLocal (Sample.env []) ["IPython"; "ipython"; "six"; "absent"] empty_state
  = (Ok [ {| name := "ipython"; version := PStr "8.12.0"; namever := "ipython-8.12.0";
             home_page := PStr "https://ipython.org";
             author := PStr "The IPython Development Team";
             size := 6200; license := PStr "BSD License" |};
          {| name := "six"; version := PStr "1.16.0"; namever := "six-1.16.0";
             home_page := PStr "UNKNOWN"; author := PStr "UNKNOWN";
             size := 0; license := PStr "MIT" |} ],
     empty_state).
Proof. vm_compute. reflexivity. Qed.

Example getPackages_ex :
  getPackages (Sample.env []) 1%positive (Sample.state_with 1%positive ["six"; "requests"])
  = (Ok [ {| name := "six"; version := PStr "1.16.0"; namever := "six-1.16.0";
             home_page := PStr "UNKNOWN"; author := PStr "UNKNOWN";
             size := 0; license := PStr "MIT" |};
          {| name := "requests"; version := PStr "2.31.0"; namever := "requests 2.31.0";
             home_page := PStr "https://example.org"; author := PStr "A. Author";
             size := 62574; license := PStr "Apache Software License" |} ],
     mkState {[ 1%positive := ["requests"] ]} [pypi_url "requests"]).
Proof. vm_compute. reflexivity. Qed.

(** ** Classifier parser *)

Lemma classifier_fold (classifiers acc : list string) :
  fold_left classifier_step classifiers acc = acc ++ collected_labels classifiers.
Proof.
  revert acc. induction classifiers as [|val rest IH]; intros acc; simpl.
  - unfold collected_labels. simpl. by rewrite app_nil_r.
  - rewrite IH. unfold collected_labels, classifier_step.
    rewrite filter_cons. destruct (Str.startswith val "License") eqn:Hpre.
    + destruct (decide (true = true)) as [_|]; [|done].
      rewrite fmap_cons, filter_cons.
      destruct (decide (_ ≠ "OSI Approved")) as [Hne|Heq].
      * by rewrite <- app_assoc.
      * done.
    + destruct (decide (false = true)) as [|_]; done.
Qed.

(** C1. For every list of classifiers, [licenseFromClassifierlist] returns the
    labels collected in encounter order (the final segment of each classifier
    that begins with "License", "OSI Approved" discarded) joined by ", ", and
    "UNKNOWN" when no label is collected, as for the empty list. *)
Theorem C1_license_from_classifiers (classifiers : list string) :
  licenseFromClassifierlist classifiers
  = (if decide (collected_labels classifiers = []) then "UNKNOWN"
     else Str.join ", " (collected_labels classifiers))
  ∧ licenseFromClassifierlist [] = "UNKNOWN".
Proof.
  split; [|reflexivity].
  unfold licenseFromClassifierlist. rewrite classifier_fold. simpl.
  destruct (collected_labels classifiers) as [|l ls]; reflexivity.
Qed.

(** ** Effects: what the resolvers do to the state *)

Lemma state_eta (s : State) : mkState (heap s) (net_log s) = s.
Proof. by destruct s. Qed.

Lemma bind_run {A B : Type} (m : M A) (f : A → M B) (s : State) :
  (m ≫= f) s = match m s with
               | (Ok a, s') => f a s'
               | (Raise e, s') => (Raise e, s')
               end.
Proof. reflexivity. Qed.

Lemma result_bind_ok {A B : Type} (m : result A) (f : A → result B) (b : B) :
  m ≫= f = Ok b → ∃ a, m = Ok a ∧ f a = Ok b.
Proof. destruct m as [a|e]; [|done]. intros H. by exists a. Qed.

Lemma log_only_ret {A : Type} (a : A) : log_only (mret a) (Ok a) [].
Proof. intros s. unfold mret, M_ret. by rewrite app_nil_r, state_eta. Qed.

Lemma log_only_lift {A : Type} (r : result A) : log_only (lift r) r [].
Proof. intros s. unfold lift. by rewrite app_nil_r, state_eta. Qed.

Lemma log_only_http (E : Env) (url : string) :
  log_only (http_get E url) (requests_get E url) [url].
Proof. intros s. reflexivity. Qed.

Lemma log_only_bind_ok {A B : Type} (m : M A) (f : A → M B) a l r' l' :
  log_only m (Ok a) l → log_only (f a) r' l' → log_only (m ≫= f) r' (l ++ l').
Proof.
  intros Hm Hf s. rewrite bind_run, Hm, Hf. simpl. by rewrite app_assoc.
Qed.

Lemma log_only_bind_raise {A B : Type} (m : M A) (f : A → M B) e l :
  log_only m (Raise e) l → log_only (m ≫= f) (Raise e) l.
Proof. intros Hm s. by rewrite bind_run, Hm. Qed.

(** Binding two such computations gives one. *)
Lemma log_only_bind {A B : Type} (m : M A) (f : A → M B) r l :
  log_only m r l →
  (∀ a, r = Ok a → ∃ r' l', log_only (f a) r' l') →
  ∃ r' l', log_only (m ≫= f) r' l'.
Proof.
  intros Hm Hf. destruct r as [a|e].
  - destruct (Hf a eq_refl) as (r' & l' & Hfa).
    exists r', (l ++ l'). by eapply log_only_bind_ok.
  - exists (Raise e), l. by apply log_only_bind_raise.
Qed.

Lemma log_only_try {A : Type} (body handler : M A) catches r l r' l' :
  log_only body r l → log_only handler r' l' →
  ∃ r'' l'', log_only (try_except body catches handler) r'' l''.
Proof.
  intros Hb Hh. destruct r as [a|e].
  - exists (Ok a), l. intros s. unfold try_except. by rewrite Hb.
  - destruct (catches e) eqn:Hc.
    + exists r', (l ++ l'). intros s. unfold try_except.
      rewrite Hb, Hc, Hh. simpl. by rewrite app_assoc.
    + exists (Raise e), l. intros s. unfold try_except. by rewrite Hb, Hc.
Qed.

Lemma log_only_unique {A : Type} (m : M A) r l r' l' :
  log_only m r l → log_only m r' l' → r = r' ∧ l = l'.
Proof.
  intros H H'. specialize (H empty_state). specialize (H' empty_state).
  rewrite H in H'. simpl in H'. by simplify_eq.
Qed.

Section Resolvers.

Variable E : Env.

Lemma getModuleSize_log_only path nm :
  ∃ r l, log_only (getModuleSize E path nm) r l.
Proof.
  unfold getModuleSize. destruct (0 <? local_size path).
  - eexists _, _. apply log_only_ret.
  - eapply log_only_bind; [apply log_only_http|]. intros request _.
    eapply log_only_bind; [apply log_only_lift|]. intros response _.
    eexists _, _. apply log_only_lift.
Qed.

Lemma local_record_log_only requirement :
  ∃ r l, log_only (local_record E requirement) r l.
Proof.
  unfold local_record.
  eapply log_only_bind; [apply log_only_lift|]. intros md _.
  cbv zeta.
  assert (∃ r l, log_only (packagePath ← lift (files E requirement);
                           getModuleSize E packagePath (md_get md "Name" UNKNOWN)) r l)
    as (r & l & H).
  { eapply log_only_bind; [apply log_only_lift|]. intros path _.
    apply getModuleSize_log_only. }
  destruct (log_only_try _ (mret 0) catches_TypeError _ _ _ _ H (log_only_ret 0))
    as (r' & l' & H').
  eapply log_only_bind; [exact H'|]. intros sz _.
  eexists _, _. apply log_only_ret.
Qed.

Lemma local_record_run requirement s :
  ∃ l, local_record E requirement s
       = ((local_record E requirement empty_state).1,
          mkState (heap s) (net_log s ++ l)).
Proof.
  destruct (local_record_log_only requirement) as (r & l & H).
  exists l. by rewrite (H s), (H empty_state).
Qed.

Lemma local_step_run acc requirement s :
  ∃ l, local_step E acc requirement s
       = let s' := mkState (heap s) (net_log s ++ l) in
         match (local_record E requirement empty_state).1 with
         | Ok p => (Ok (acc ++ [p]), s')
         | Raise e => if catches_not_found e then (Ok acc, s') else (Raise e, s')
         end.
Proof.
  destruct (local_record_run requirement s) as [l Hl]. exists l.
  unfold local_step, try_except. rewrite bind_run, Hl.
  destruct (local_record E requirement empty_state).1 as [p|e]; [done|].
  by destruct (catches_not_found e).
Qed.

Lemma local_loop_app l1 l2 acc s :
  local_loop E (l1 ++ l2) acc s = (local_loop E l1 acc ≫= local_loop E l2) s.
Proof.
  revert acc s. induction l1 as [|r l1 IH]; intros acc s; [done|].
  simpl. rewrite !bind_run. destruct (local_step E acc r s) as [[acc'|e] s1]; [|done].
  by rewrite IH, bind_run.
Qed.

Lemma local_loop_ok xs acc s out s' :
  local_loop E xs acc s = (Ok out, s') →
  out = acc ++ local_records E xs ∧ heap s' = heap s.
Proof.
  revert acc s. induction xs as [|r xs IH]; intros acc s; simpl.
  - intros [= <- <-]. unfold local_records. simpl. by rewrite app_nil_r.
  - rewrite bind_run. destruct (local_step_run acc r s) as [l ->]. cbv zeta.
    unfold local_records, local_outcome. simpl.
    destruct (local_record E r empty_state).1 as [p|e].
    + intros H. apply IH in H as [-> ->]. simpl. by rewrite <- app_assoc.
    + destruct (catches_not_found e); [|done].
      intros H. by apply IH in H as [-> ->].
Qed.

Lemma getPackagesFromLocal_ok xs s out s' :
  getPackagesFromLocal E xs s = (Ok out, s') →
  out = local_records E xs ∧ heap s' = heap s.
Proof. apply local_loop_ok. Qed.

Lemma local_outcome_found requirement p :
  local_outcome E requirement = Some p →
  ∃ md, metadata E requirement = Ok md ∧ name p = md_get md "Name" UNKNOWN.
Proof.
  unfold local_outcome, local_record. rewrite bind_run. unfold lift at 1.
  destruct (metadata E requirement) as [md|e]; [|done].
  cbv zeta. rewrite bind_run.
  destruct (try_except _ _ _ _) as [[sz|e] s1]; [|done].
  unfold mret, M_ret. simpl. intros [= <-]. by exists md.
Qed.

(** *** Remote resolver *)

Lemma pypi_step_run acc pkg s :
  pypi_step E acc pkg s
  = ((λ p, acc ++ [p]) <$> pypi_outcome E pkg,
     mkState (heap s) (net_log s ++ [pypi_url pkg])).
Proof.
  unfold pypi_step, pypi_outcome, http_get. rewrite bind_run.
  destruct (requests_get E (pypi_url pkg)) as [request|e]; [|reflexivity].
  rewrite bind_run. unfold lift at 1.
  change (Ok request ≫= _) with (json request ≫= pypi_record E pkg).
  destruct (json request) as [response|e]; [|reflexivity].
  rewrite bind_run. unfold lift.
  change (Ok response ≫= pypi_record E pkg) with (pypi_record E pkg response).
  destruct (pypi_record E pkg response); reflexivity.
Qed.

Lemma pypi_record_name pkg response p :
  pypi_record E pkg response = Ok p → name p = pkg.
Proof.
  unfold pypi_record. intros H.
  repeat (apply result_bind_ok in H as (? & _ & H); cbv zeta in H).
  by injection H as <-.
Qed.

Lemma pypi_loop_app l1 l2 acc s :
  pypi_loop E (l1 ++ l2) acc s = (pypi_loop E l1 acc ≫= pypi_loop E l2) s.
Proof.
  revert acc s. induction l1 as [|r l1 IH]; intros acc s; [done|].
  simpl. rewrite !bind_run. destruct (pypi_step E acc r s) as [[acc'|e] s1]; [|done].
  by rewrite IH, bind_run.
Qed.

Lemma pypi_loop_ok xs acc s out s' :
  pypi_loop E xs acc s = (Ok out, s') →
  ∃ ps, out = acc ++ ps ∧ name <$> ps = xs
        ∧ Forall2 (λ pkg p, pypi_outcome E pkg = Ok p) xs ps
        ∧ heap s' = heap s ∧ net_log s' = net_log s ++ (pypi_url <$> xs).
Proof.
  revert acc s. induction xs as [|pkg xs IH]; intros acc s; simpl.
  - intros [= <- <-]. exists []. by rewrite !app_nil_r.
  - rewrite bind_run, pypi_step_run.
    destruct (pypi_outcome E pkg) as [p|e] eqn:Hp; [|done].
    simpl. intros H. apply IH in H as (ps & -> & Hn & Hall & -> & ->). simpl.
    exists (p :: ps). rewrite <- !app_assoc. split_and!; try done.
    + rewrite fmap_cons, Hn. f_equal. unfold pypi_outcome in Hp.
      apply result_bind_ok in Hp as (? & _ & Hp).
      apply result_bind_ok in Hp as (? & _ & Hp).
      by apply pypi_record_name in Hp.
    + by constructor.
Qed.

Lemma packageInfoFromPypi_ok xs s out s' :
  packageInfoFromPypi E xs s = (Ok out, s') →
  name <$> out = xs
  ∧ Forall2 (λ pkg p, pypi_outcome E pkg = Ok p) xs out
  ∧ heap s' = heap s ∧ net_log s' = net_log s ++ (pypi_url <$> xs).
Proof.
  intros H. apply pypi_loop_ok in H as (ps & -> & ? & ? & ? & ?). done.
Qed.

End Resolvers.

(** ** Removal from the caller's list *)

Lemma list_remove_length x xs xs' :
  list_remove x xs = Some xs' → length xs = S (length xs').
Proof.
  revert xs'. induction xs as [|y ys IH]; intros xs'; simpl; [done|].
  destruct (decide (y = x)); [by intros [= <-]|].
  destruct (list_remove x ys) as [ys'|]; [|done].
  intros [= <-]. simpl. by rewrite (IH ys').
Qed.

Lemma list_remove_elem x xs : x ∈ xs → is_Some (list_remove x xs).
Proof.
  induction 1 as [|? y ys Hin IH]; simpl.
  - by rewrite decide_True.
  - destruct (decide (y = x)); [done|]. destruct IH as [ys' ->]. done.
Qed.

Lemma list_remove_absent x xs : x ∉ xs → list_remove x xs = None.
Proof.
  induction xs as [|y ys IH]; [done|]. intros Hnin. simpl.
  rewrite decide_False by (intros ->; apply Hnin; left).
  rewrite IH; [done|]. intros Hin. apply Hnin. by right.
Qed.

Lemma list_remove_other x y xs xs' :
  list_remove x xs = Some xs' → y ≠ x → y ∈ xs → y ∈ xs'.
Proof.
  revert xs'. induction xs as [|z zs IH]; intros xs'; simpl; [done|].
  destruct (decide (z = x)) as [->|Hzx].
  - intros [= <-] Hne Hin. apply elem_of_cons in Hin as [?|?]; done.
  - destruct (list_remove x zs) as [zs'|]; [|done]. intros [= <-] Hne Hin.
    apply elem_of_cons in Hin as [->|Hin]; [left|right]. by apply IH.
Qed.

Lemma remove_all_length names xs xs' :
  remove_all names xs = Some xs' → length xs = (length names + length xs')%nat.
Proof.
  revert xs. induction names as [|n names IH]; intros xs; simpl.
  - by intros [= <-].
  - destruct (list_remove n xs) as [ys|] eqn:Hrm; [|done].
    intros H. apply IH in H. apply list_remove_length in Hrm. lia.
Qed.

Lemma remove_all_cons_ne names x xs :
  Forall (λ n, n ≠ x) names →
  remove_all names (x :: xs) = (x ::.) <$> remove_all names xs.
Proof.
  intros Hall. revert xs. induction Hall as [|n names Hn _ IH]; intros xs; [done|].
  simpl. rewrite decide_False by done.
  destruct (list_remove n xs) as [ys|]; simpl; [apply IH|done].
Qed.

(** Removing, in order, the entries that satisfy [P] leaves the others. *)
Lemma remove_all_filter (P : string → bool) xs :
  remove_all (filter (λ r, P r = true) xs) xs = Some (filter (λ r, P r = false) xs).
Proof.
  induction xs as [|x xs IH]; [done|].
  rewrite !filter_cons. destruct (P x) eqn:HP.
  - destruct (decide (true = true)) as [_|]; [|done].
    destruct (decide (true = false)) as [|_]; [done|].
    simpl. by rewrite decide_True.
  - destruct (decide (false = true)) as [|_]; [done|].
    destruct (decide (false = false)) as [_|]; [|done].
    rewrite remove_all_cons_ne, IH; [done|].
    apply Forall_forall. intros n Hn. apply list_elem_of_filter in Hn as [Hn _].
    intros ->. congruence.
Qed.

Lemma for_each_remove (reqs : loc) (ps : list PackageInfo) s xs :
  heap s !! reqs = Some xs →
  ∃ s1, for_each ps (λ localReq, remove reqs (Str.lower (name localReq))) s
        = (match remove_all (removal_key <$> ps) xs with
           | Some _ => Ok ()
           | None => Raise ValueError
           end, s1)
        ∧ net_log s1 = net_log s
        ∧ ∀ xs', remove_all (removal_key <$> ps) xs = Some xs' →
                 heap s1 = <[reqs := xs']> (heap s).
Proof.
  revert s xs. induction ps as [|p ps IH]; intros s xs Hxs; simpl.
  - exists s. split_and!; try done. intros xs' [= <-]. by rewrite insert_id.
  - rewrite bind_run. unfold remove at 1. rewrite bind_run. unfold read at 1.
    rewrite Hxs. fold (removal_key p).
    destruct (list_remove (removal_key p) xs) as [ys|] eqn:Hrm.
    + unfold write at 1.
      set (s0 := mkState (<[reqs:=ys]> (heap s)) (net_log s)).
      destruct (IH s0 ys) as (s1 & Hrun & Hlog & Hheap).
      { subst s0. simpl. apply lookup_insert_eq. }
      exists s1. split_and!; try done.
      intros xs' Hxs'. rewrite (Hheap xs' Hxs'). subst s0. simpl.
      apply insert_insert_eq.
    + exists s. split_and!; done.
Qed.

(** ** Local resolver: absent metadata, size that cannot be computed *)

(** C5. A name whose metadata lookup signals not-found raises nothing and
    gives no record: its turn of the loop leaves the list of records and the
    state as they were, so the local resolver gives the same outcome with the
    name as without it; the output of the resolver is the list of the records
    of the names that resolve, one each, in order. *)
Theorem C5_absent_metadata_is_skipped (E : Env) (r : string) :
  metadata E r = Raise PackageNotFoundError →
  (∀ acc s, local_step E acc r s = (Ok acc, s))
  ∧ local_outcome E r = None
  ∧ (∀ l1 l2 s,
       getPackagesFromLocal E (l1 ++ r :: l2) s = getPackagesFromLocal E (l1 ++ l2) s)
  ∧ (∀ l s out s',
       getPackagesFromLocal E l s = (Ok out, s') → out = local_records E l).
Proof.
  intros Habsent.
  assert (∀ s, local_record E r s = (Raise PackageNotFoundError, s)) as Hrec.
  { intros s. unfold local_record. rewrite bind_run. unfold lift. by rewrite Habsent. }
  assert (∀ acc s, local_step E acc r s = (Ok acc, s)) as Hstep.
  { intros acc s. unfold local_step, try_except. by rewrite bind_run, Hrec. }
  split_and!.
  - exact Hstep.
  - unfold local_outcome. by rewrite Hrec.
  - intros l1 l2 s. unfold getPackagesFromLocal.
    rewrite !local_loop_app, !bind_run.
    destruct (local_loop E l1 [] s) as [[acc|e] s1]; [|done].
    simpl. by rewrite bind_run, Hstep.
  - intros l s out s' H. by apply getPackagesFromLocal_ok in H as [-> _].
Qed.

Lemma C5_absent_metadata_is_skipped_witness :
  metadata (Sample.env []) "absent" = Raise PackageNotFoundError
  ∧ getPackagesFromLocal (Sample.env []) ["six"; "absent"] empty_state
    = getPackagesFromLocal (Sample.env []) ["six"] empty_state.
Proof.
  split; [reflexivity|].
  apply (C5_absent_metadata_is_skipped (Sample.env []) "absent" eq_refl).
Defined.

(** C7. When the metadata of a name is found and the lookup of its files
    raises [TypeError], the local resolver raises nothing and appends a record
    whose size is 0. *)
Theorem C7_size_unsupported_gives_zero (E : Env) (r : string) (md : PackageMetadata) :
  metadata E r = Ok md →
  files E r = Raise TypeError →
  ∃ p, size p = 0
       ∧ name p = md_get md "Name" UNKNOWN
       ∧ (∀ acc s, local_step E acc r s = (Ok (acc ++ [p]), s))
       ∧ ∀ s, getPackagesFromLocal E [r] s = (Ok [p], s).
Proof.
  intros Hmd Hfiles.
  assert (∃ p, size p = 0 ∧ name p = md_get md "Name" UNKNOWN
               ∧ ∀ s, local_record E r s = (Ok p, s)) as (p & Hsz & Hname & Hrec).
  { eexists. split_and!; [| |intros s; unfold local_record;
      rewrite bind_run; unfold lift at 1; rewrite Hmd; cbv zeta;
      rewrite bind_run; unfold try_except at 1; rewrite bind_run;
      unfold lift at 1; rewrite Hfiles;
      change (catches_TypeError TypeError) with true; cbv iota;
      unfold mret, M_ret; reflexivity]; reflexivity. }
  assert (∀ acc s, local_step E acc r s = (Ok (acc ++ [p]), s)) as Hstep.
  { intros acc s. unfold local_step, try_except. by rewrite bind_run, Hrec. }
  exists p. split_and!; try done.
  intros s. unfold getPackagesFromLocal. simpl. by rewrite bind_run, Hstep.
Qed.

Lemma C7_size_unsupported_gives_zero_witness :
  ∃ p, size p = 0
       ∧ name p = "six"
       ∧ (∀ acc s, local_step (Sample.env []) acc "six" s = (Ok (acc ++ [p]), s))
       ∧ ∀ s, getPackagesFromLocal (Sample.env []) ["six"] s = (Ok [p], s).
Proof.
  exact (C7_size_unsupported_gives_zero (Sample.env []) "six" Sample.six_metadata
           eq_refl eq_refl).
Defined.

(** ** Size from the registry *)

(** C10. When the files of the tree outside [__pycache__] sum to 0 bytes,
    [getModuleSize] does not answer with that sum: it sends one GET to the
    registry and its outcome is that of the request, of the parse and of the
    [size] of the last entry of [urls]; so the local resolver sends requests,
    and an exception of the request that no handler lists leaves it. *)
Theorem C10_empty_tree_asks_registry (E : Env) (path : Path) (nm : string) (s : State) :
  local_size path = 0 →
  getModuleSize E path nm s
  = (request ← requests_get E (pypi_url nm);
     response ← json request;
     registry_size E response,
     mkState (heap s) (net_log s ++ [pypi_url nm]))
  ∧ ∀ r md e,
      metadata E r = Ok md →
      files E r = Ok path →
      nm = md_get md "Name" UNKNOWN →
      requests_get E (pypi_url nm) = Raise e →
      catches_TypeError e = false →
      catches_not_found e = false →
      getPackagesFromLocal E [r] s
      = (Raise e, mkState (heap s) (net_log s ++ [pypi_url nm])).
Proof.
  intros Hzero.
  assert (∀ s0, getModuleSize E path nm s0
          = (request ← requests_get E (pypi_url nm);
             response ← json request;
             registry_size E response,
             mkState (heap s0) (net_log s0 ++ [pypi_url nm]))) as Hsize.
  { intros s0. unfold getModuleSize. rewrite Hzero.
    change (0 <? 0) with false. cbv iota zeta.
    rewrite bind_run. unfold http_get.
    destruct (requests_get E (pypi_url nm)) as [request|e]; [|reflexivity].
    rewrite bind_run. unfold lift at 1.
    change (Ok request ≫= _) with (json request ≫= registry_size E).
    destruct (json request) as [response|e]; reflexivity. }
  split; [apply Hsize|].
  intros r md e Hmd Hfiles -> Hget He1 He2.
  unfold getPackagesFromLocal. simpl. rewrite bind_run.
  unfold local_step, try_except at 1. rewrite bind_run.
  unfold local_record. rewrite bind_run. unfold lift at 1. rewrite Hmd.
  cbv zeta. rewrite bind_run. unfold try_except at 1. rewrite bind_run.
  unfold lift at 1. rewrite Hfiles, Hsize, Hget.
  change (Raise e ≫= _) with (@Raise Z e). cbv beta iota.
  rewrite He1. cbv beta iota. by rewrite He2.
Qed.

Lemma C10_empty_tree_asks_registry_witness :
  local_size Sample.hollow_tree = 0
  ∧ getModuleSize (Sample.env []) Sample.hollow_tree "requests" empty_state
    = (Ok 62574, mkState ∅ [pypi_url "requests"])
  ∧ getPackagesFromLocal (Sample.env []) ["hollow"] empty_state
    = (Raise ConnectionError, mkState ∅ [pypi_url "hollow"]).
Proof.
  split; [reflexivity|]. split.
  - apply (C10_empty_tree_asks_registry (Sample.env []) Sample.hollow_tree
             "requests" empty_state eq_refl).
  - apply (proj2 (C10_empty_tree_asks_registry (Sample.env []) Sample.hollow_tree
                    "hollow" empty_state eq_refl)
             "hollow" Sample.hollow_metadata ConnectionError);
      reflexivity.
Defined.

(** ** Remote resolver: failures are not caught *)

(** C6. When the names before [r] resolve and the request for [r] raises, or
    its answer does not parse, the remote resolver raises that exception: the
    request for [r] was sent once, none was sent for the names after it, and
    no list of records is returned. *)
Theorem C6_registry_failure_propagates
    (E : Env) (l1 l2 : list string) (r : string) (s s1 : State)
    (out1 : list PackageInfo) (e : exn) :
  packageInfoFromPypi E l1 s = (Ok out1, s1) →
  (requests_get E (pypi_url r) = Raise e
   ∨ ∃ request, requests_get E (pypi_url r) = Ok request ∧ json request = Raise e) →
  packageInfoFromPypi E (l1 ++ r :: l2) s
  = (Raise e,
     mkState (heap s) (net_log s ++ (pypi_url <$> l1) ++ [pypi_url r])).
Proof.
  intros Hl1 Hfail.
  destruct (packageInfoFromPypi_ok E l1 s out1 s1 Hl1) as (_ & _ & Hheap & Hlog).
  assert (pypi_outcome E r = Raise e) as Hout.
  { unfold pypi_outcome. destruct Hfail as [->|(request & -> & Hjson)]; [done|].
    change (Ok request ≫= _) with (json request ≫= pypi_record E r).
    by rewrite Hjson. }
  unfold packageInfoFromPypi in *. rewrite pypi_loop_app, bind_run, Hl1.
  simpl. rewrite bind_run, pypi_step_run, Hout. simpl.
  by rewrite Hheap, Hlog, <- app_assoc.
Qed.

Lemma C6_registry_failure_propagates_witness :
  packageInfoFromPypi (Sample.env []) ["requests"; "nosuchpkg"; "flask"] empty_state
  = (Raise JSONDecodeError,
     mkState ∅ [pypi_url "requests"; pypi_url "nosuchpkg"]).
Proof.
  eapply (C6_registry_failure_propagates (Sample.env []) ["requests"] ["flask"]
            "nosuchpkg" empty_state).
  - vm_compute. reflexivity.
  - right. eexists. split; vm_compute; reflexivity.
Defined.

(** ** Aggregator *)

Section Aggregator.

Variable E : Env.
Variable reqs : loc.

Lemma getPackages_local_raises s xs e s1 :
  heap s !! reqs = Some xs →
  getPackagesFromLocal E xs s = (Raise e, s1) →
  getPackages E reqs s = (Raise e, s1).
Proof.
  intros Hxs Hlocal. unfold getPackages. rewrite bind_run. unfold read at 1.
  by rewrite Hxs, bind_run, Hlocal.
Qed.

Lemma getPackages_removal_raises s xs localReqs s1 :
  heap s !! reqs = Some xs →
  getPackagesFromLocal E xs s = (Ok localReqs, s1) →
  remove_all (removal_key <$> localReqs) xs = None →
  ∃ s', getPackages E reqs s = (Raise ValueError, s').
Proof.
  intros Hxs Hlocal Hrm.
  destruct (getPackagesFromLocal_ok E xs s localReqs s1 Hlocal) as [_ Hheap].
  destruct (for_each_remove reqs localReqs s1 xs) as (s2 & Hrun & _).
  { by rewrite Hheap. }
  exists s2. unfold getPackages. rewrite bind_run. unfold read at 1.
  by rewrite Hxs, bind_run, Hlocal, bind_run, Hrun, Hrm.
Qed.

Lemma getPackages_removal_ok s xs localReqs s1 xs' :
  heap s !! reqs = Some xs →
  getPackagesFromLocal E xs s = (Ok localReqs, s1) →
  remove_all (removal_key <$> localReqs) xs = Some xs' →
  getPackages E reqs s
  = (onlineReqs ← packageInfoFromPypi E xs'; mret (localReqs ++ onlineReqs))
      (mkState (<[reqs := xs']> (heap s)) (net_log s1)).
Proof.
  intros Hxs Hlocal Hrm.
  destruct (getPackagesFromLocal_ok E xs s localReqs s1 Hlocal) as [_ Hheap].
  destruct (for_each_remove reqs localReqs s1 xs) as (s2 & Hrun & Hlog & Hs2).
  { by rewrite Hheap. }
  specialize (Hs2 xs' Hrm). rewrite Hheap in Hs2.
  assert (s2 = mkState (<[reqs := xs']> (heap s)) (net_log s1)) as Hs2'.
  { destruct s2. simpl in *. by subst. }
  unfold getPackages. rewrite bind_run. unfold read at 1.
  rewrite Hxs, bind_run, Hlocal, bind_run, Hrun, Hrm.
  rewrite bind_run. unfold read at 1. rewrite Hs2. rewrite lookup_insert_eq.
  by rewrite Hs2'.
Qed.

(** A run that returns went through the three stages. *)
Lemma getPackages_ok_inv s xs out s' :
  heap s !! reqs = Some xs →
  getPackages E reqs s = (Ok out, s') →
  ∃ localReqs s1 xs' onlineReqs,
    getPackagesFromLocal E xs s = (Ok localReqs, s1)
    ∧ remove_all (removal_key <$> localReqs) xs = Some xs'
    ∧ packageInfoFromPypi E xs' (mkState (<[reqs := xs']> (heap s)) (net_log s1))
      = (Ok onlineReqs, s')
    ∧ out = localReqs ++ onlineReqs.
Proof.
  intros Hxs Hrun.
  destruct (getPackagesFromLocal E xs s) as [[localReqs|e] s1] eqn:Hlocal.
  2: { by rewrite (getPackages_local_raises s xs e s1) in Hrun. }
  destruct (remove_all (removal_key <$> localReqs) xs) as [xs'|] eqn:Hrm.
  2: { destruct (getPackages_removal_raises s xs localReqs s1) as [s2 H]; try done.
       by rewrite H in Hrun. }
  rewrite (getPackages_removal_ok s xs localReqs s1 xs') in Hrun by done.
  rewrite bind_run in Hrun.
  destruct (packageInfoFromPypi E xs' _) as [[onlineReqs|e] s2] eqn:Hpypi; [|done].
  injection Hrun as <- <-. by exists localReqs, s1, xs', onlineReqs.
Qed.

Lemma removal_keys_resolved xs :
  (∀ r p, r ∈ xs → local_outcome E r = Some p → r = removal_key p) →
  removal_key <$> local_records E xs
  = filter (λ r, resolves_locally E r = true) xs.
Proof.
  induction xs as [|x xs IH]; intros Hcase; [done|].
  rewrite filter_cons. unfold local_records, resolves_locally in *. simpl.
  destruct (local_outcome E x) as [p|] eqn:Hx; simpl.
  - rewrite <- (Hcase x p); [|left|done]. f_equal.
    apply IH. intros r q Hr. apply Hcase. by right.
  - apply IH. intros r q Hr. apply Hcase. by right.
Qed.

End Aggregator.

(** C2. When every name of the list that resolves locally is the lower-case
    form of the name its record carries, [getPackages] runs the local
    resolver on the list, leaves in the caller's list exactly the names that
    do not resolve locally, runs the remote resolver on those, and returns the
    local records followed by the remote ones; so every name of the input goes
    through exactly one resolver, and no local record and remote record stand
    for the same name. *)
Theorem C2_one_resolver_per_name (E : Env) (reqs : loc) (s : State) (xs : list string) :
  heap s !! reqs = Some xs →
  (∀ r p, r ∈ xs → local_outcome E r = Some p → r = Str.lower (name p)) →
  getPackages E reqs s
  = (localReqs ← getPackagesFromLocal E xs;
     _ ← write reqs (unresolved E xs);
     onlineReqs ← packageInfoFromPypi E (unresolved E xs);
     mret (localReqs ++ onlineReqs)) s
  ∧ ∀ out s', getPackages E reqs s = (Ok out, s') →
      ∃ localReqs onlineReqs,
        out = localReqs ++ onlineReqs
        ∧ localReqs = local_records E xs
        ∧ removal_key <$> localReqs = filter (λ r, resolves_locally E r = true) xs
        ∧ name <$> onlineReqs = unresolved E xs
        ∧ Forall2 (λ pkg q, pypi_outcome E pkg = Ok q) (unresolved E xs) onlineReqs
        ∧ (∀ r, r ∈ xs →
             (r ∈ (removal_key <$> localReqs) ∧ r ∉ (name <$> onlineReqs))
             ∨ ((r ∉ (removal_key <$> localReqs)) ∧ r ∈ (name <$> onlineReqs)))
        ∧ (∀ p q, p ∈ localReqs → q ∈ onlineReqs → removal_key p ≠ name q).
Proof.
  intros Hxs Hcase.
  assert (∀ localReqs s1, getPackagesFromLocal E xs s = (Ok localReqs, s1) →
            localReqs = local_records E xs
            ∧ heap s1 = heap s
            ∧ removal_key <$> localReqs = filter (λ r, resolves_locally E r = true) xs
            ∧ remove_all (removal_key <$> localReqs) xs = Some (unresolved E xs))
    as Hlocal_ok.
  { intros localReqs s1 H. apply getPackagesFromLocal_ok in H as [-> Hheap].
    rewrite removal_keys_resolved by exact Hcase.
    split_and!; try done. apply remove_all_filter. }
  split.
  - rewrite (bind_run (getPackagesFromLocal E xs)).
    destruct (getPackagesFromLocal E xs s) as [[localReqs|e] s1] eqn:Hlocal.
    + destruct (Hlocal_ok localReqs s1 eq_refl) as (_ & Hheap & _ & Hrm).
      rewrite (getPackages_removal_ok E reqs s xs localReqs s1 _ Hxs Hlocal Hrm).
      rewrite (bind_run (write _ _)). unfold write at 1. by rewrite Hheap.
    + by apply (getPackages_local_raises E reqs s xs).
  - intros out s' Hrun.
    apply getPackages_ok_inv with (xs := xs) in Hrun
      as (localReqs & s1 & xs' & onlineReqs & Hlocal & Hrm & Hpypi & ->);
      [|done].
    destruct (Hlocal_ok localReqs s1 Hlocal) as (Hrecs & _ & Hkeys & Hrm').
    rewrite Hrm in Hrm'. injection Hrm' as ->.
    apply packageInfoFromPypi_ok in Hpypi as (Hnames & Hall & _ & _).
    assert (∀ r, r ∈ (removal_key <$> localReqs) → r ∉ (name <$> onlineReqs)) as Hdisj.
    { intros r. rewrite Hkeys, Hnames. unfold unresolved.
      rewrite !list_elem_of_filter. intros [H1 _] [H2 _]. congruence. }
    exists localReqs, onlineReqs. split_and!; try done.
    + intros r Hr. destruct (resolves_locally E r) eqn:Hres.
      * left. assert (r ∈ (removal_key <$> localReqs)) as Hin.
        { rewrite Hkeys. by apply list_elem_of_filter. }
        split; [done|]. by apply Hdisj.
      * right. assert (r ∈ (name <$> onlineReqs)) as Hin.
        { rewrite Hnames. by apply list_elem_of_filter. }
        split; [|done]. intros Hin'. by apply (Hdisj r Hin').
    + intros p q Hp Hq Heq. apply (Hdisj (removal_key p)).
      * by apply list_elem_of_fmap_2.
      * rewrite Heq. by apply list_elem_of_fmap_2.
Qed.

Lemma C2_one_resolver_per_name_witness :
  getPackages (Sample.env []) 1%positive
    (Sample.state_with 1%positive ["six"; "requests"; "six"])
  = (localReqs ← getPackagesFromLocal (Sample.env []) ["six"; "requests"; "six"];
     _ ← write 1%positive ["requests"];
     onlineReqs ← packageInfoFromPypi (Sample.env []) ["requests"];
     mret (localReqs ++ onlineReqs))
      (Sample.state_with 1%positive ["six"; "requests"; "six"]).
Proof.
  refine (proj1 (C2_one_resolver_per_name (Sample.env []) 1%positive
                   (Sample.state_with 1%positive ["six"; "requests"; "six"])
                   ["six"; "requests"; "six"] eq_refl _)).
  intros r p Hr.
  repeat (apply elem_of_cons in Hr as [->|Hr]); [| | |by apply elem_of_nil in Hr];
    vm_compute; intros H; by simplify_eq.
Defined.

(** C8. [getPackages] changes the list it is given: when it returns, the
    caller's list has lost, one removal after the other, the first occurrence
    of the lower-case name of every local record; it is shorter by the number
    of local records, so it differs from the original as soon as one name
    resolved locally.  No other object of the store changes. *)
Theorem C8_getPackages_mutates_argument
    (E : Env) (reqs : loc) (s s' : State) (xs : list string) (out : list PackageInfo) :
  heap s !! reqs = Some xs →
  getPackages E reqs s = (Ok out, s') →
  ∃ localReqs onlineReqs xs',
    out = localReqs ++ onlineReqs
    ∧ localReqs = local_records E xs
    ∧ remove_all (Str.lower ∘ name <$> localReqs) xs = Some xs'
    ∧ heap s' = <[reqs := xs']> (heap s)
    ∧ length xs = (length localReqs + length xs')%nat
    ∧ (localReqs ≠ [] → xs' ≠ xs).
Proof.
  intros Hxs Hrun.
  apply getPackages_ok_inv with (xs := xs) in Hrun
    as (localReqs & s1 & xs' & onlineReqs & Hlocal & Hrm & Hpypi & ->); [|done].
  apply getPackagesFromLocal_ok in Hlocal as [Hrecs _].
  apply packageInfoFromPypi_ok in Hpypi as (_ & _ & Hheap & _).
  pose proof (remove_all_length _ _ _ Hrm) as Hlen. rewrite length_fmap in Hlen.
  exists localReqs, onlineReqs, xs'. split_and!; try done.
  intros Hne ->. destruct localReqs; [done|]. simpl in Hlen. lia.
Qed.

Lemma C8_getPackages_mutates_argument_witness :
  ∃ localReqs onlineReqs xs',
    [ {| name := "six"; version := PStr "1.16.0"; namever := "six-1.16.0";
         home_page := PStr "UNKNOWN"; author := PStr "UNKNOWN";
         size := 0; license := PStr "MIT" |};
      {| name := "requests"; version := PStr "2.31.0"; namever := "requests 2.31.0";
         home_page := PStr "https://example.org"; author := PStr "A. Author";
         size := 62574; license := PStr "Apache Software License" |} ]
    = localReqs ++ onlineReqs
    ∧ localReqs = local_records (Sample.env []) ["six"; "requests"]
    ∧ remove_all (Str.lower ∘ name <$> localReqs) ["six"; "requests"] = Some xs'
    ∧ heap (mkState {[ 1%positive := ["requests"] ]} [pypi_url "requests"])
      = <[1%positive := xs']> (heap (Sample.state_with 1%positive ["six"; "requests"]))
    ∧ length ["six"; "requests"] = (length localReqs + length xs')%nat
    ∧ (localReqs ≠ [] → xs' ≠ ["six"; "requests"]).
Proof.
  apply (C8_getPackages_mutates_argument (Sample.env []) 1%positive
           (Sample.state_with 1%positive ["six"; "requests"])
           (mkState {[ 1%positive := ["requests"] ]} [pypi_url "requests"])
           ["six"; "requests"]).
  - reflexivity.
  - vm_compute. reflexivity.
Defined.

(** *** Names whose casing differs from the reported one *)

Lemma lower_char_not_upper (c : ascii) : Str.is_upper (Str.lower_char c) = false.
Proof. destruct c as [[] [] [] [] [] [] [] []]; reflexivity. Qed.

Lemma lower_has_no_upper (n : string) : Str.has_upper (Str.lower n) = false.
Proof.
  induction n as [|c n IH]; [done|]. simpl. by rewrite lower_char_not_upper, IH.
Qed.

(** No removal of the aggregator can name an entry with an upper-case letter. *)
Lemma upper_is_no_removal_key (r : string) (p : PackageInfo) :
  Str.has_upper r = true → r ≠ removal_key p.
Proof.
  intros Hup ->. unfold removal_key in Hup. by rewrite lower_has_no_upper in Hup.
Qed.

Lemma remove_all_keeps (names xs xs' : list string) (r : string) :
  remove_all names xs = Some xs' → r ∉ names → r ∈ xs → r ∈ xs'.
Proof.
  revert xs. induction names as [|n names IH]; intros xs; simpl.
  - by intros [= <-].
  - destruct (list_remove n xs) as [ys|] eqn:Hrm; [|done].
    intros Hall Hnin Hin. apply (IH ys); [done| |].
    + intros H. apply Hnin. by right.
    + apply (list_remove_other n r xs ys); [done| |done].
      intros ->. apply Hnin. by left.
Qed.

Lemma list_remove_sub (x y : string) (xs xs' : list string) :
  list_remove x xs = Some xs' → y ∈ xs' → y ∈ xs.
Proof.
  revert xs'. induction xs as [|z zs IH]; intros xs'; simpl; [done|].
  destruct (decide (z = x)) as [->|Hzx].
  - intros [= <-] Hin. by right.
  - destruct (list_remove x zs) as [zs'|]; [|done]. intros [= <-] Hin.
    apply elem_of_cons in Hin as [->|Hin]; [left|right]. by apply (IH zs').
Qed.

Lemma remove_all_absent (names xs : list string) (n : string) :
  n ∈ names → n ∉ xs → remove_all names xs = None.
Proof.
  revert xs. induction names as [|m names IH]; intros xs Hin Hnin.
  - by apply elem_of_nil in Hin.
  - simpl. destruct (list_remove m xs) as [ys|] eqn:Hrm; [|done].
    apply elem_of_cons in Hin as [->|Hin].
    + by rewrite list_remove_absent in Hrm.
    + apply IH; [done|]. intros H. apply Hnin. by apply (list_remove_sub m n xs ys).
Qed.

Lemma local_records_elem (E : Env) (xs : list string) (r : string) (p : PackageInfo) :
  r ∈ xs → local_outcome E r = Some p → p ∈ local_records E xs.
Proof.
  intros Hin Hp. unfold local_records. apply list_elem_of_omap. by exists r.
Qed.

(** A name with an upper-case letter that resolves locally stays in the list,
    so a run that returns has looked it up at the registry as well. *)
Lemma upper_case_name_resolved_twice
    (E : Env) (reqs : loc) (s s' : State) (xs : list string) (r : string)
    (p : PackageInfo) (out : list PackageInfo) :
  heap s !! reqs = Some xs →
  r ∈ xs →
  Str.has_upper r = true →
  local_outcome E r = Some p →
  getPackages E reqs s = (Ok out, s') →
  p ∈ out
  ∧ (∃ q, q ∈ out ∧ pypi_outcome E r = Ok q ∧ name q = r)
  ∧ (∃ xs', heap s' !! reqs = Some xs' ∧ r ∈ xs')
  ∧ pypi_url r ∈ net_log s'.
Proof.
  intros Hxs Hin Hup Hp Hrun.
  apply getPackages_ok_inv with (xs := xs) in Hrun
    as (localReqs & s1 & xs' & onlineReqs & Hlocal & Hrm & Hpypi & ->); [|done].
  apply getPackagesFromLocal_ok in Hlocal as [-> _].
  assert (r ∈ xs') as Hin'.
  { apply (remove_all_keeps _ xs xs' r Hrm); [|done].
    intros H. apply list_elem_of_fmap in H as (p' & -> & _).
    by apply (upper_is_no_removal_key _ p' Hup). }
  apply packageInfoFromPypi_ok in Hpypi as (Hnames & Hall & Hheap & Hlog).
  split_and!.
  - apply elem_of_app. left. by apply (local_records_elem E xs r).
  - apply list_elem_of_lookup in Hin' as [i Hi].
    destruct (Forall2_lookup_l _ _ _ _ _ Hall Hi) as (q & Hq & Hout).
    exists q. split_and!; [| done |].
    + apply elem_of_app. right. by apply list_elem_of_lookup_2 in Hq.
    + assert ((name <$> onlineReqs) !! i = Some (name q)) as Hnq
        by by rewrite list_lookup_fmap, Hq.
      rewrite Hnames, Hi in Hnq. by injection Hnq.
  - exists xs'. by rewrite Hheap; simpl; rewrite lookup_insert_eq.
  - rewrite Hlog. apply elem_of_app. right. simpl. by apply list_elem_of_fmap_2.
Qed.

(** When the lower-case form of the name that a local record carries is not
    in the list, the removal raises [ValueError] and nothing is looked up at
    the registry by the remote resolver. *)
Lemma casing_mismatch_raises
    (E : Env) (reqs : loc) (s s1 : State) (xs : list string) (r : string)
    (p : PackageInfo) (localReqs : list PackageInfo) :
  heap s !! reqs = Some xs →
  r ∈ xs →
  local_outcome E r = Some p →
  removal_key p ∉ xs →
  getPackagesFromLocal E xs s = (Ok localReqs, s1) →
  ∃ s', getPackages E reqs s = (Raise ValueError, s').
Proof.
  intros Hxs Hin Hp Hnin Hlocal.
  apply (getPackages_removal_raises E reqs s xs localReqs s1 Hxs Hlocal).
  apply (remove_all_absent _ xs (removal_key p)); [|done].
  apply getPackagesFromLocal_ok in Hlocal as [-> _].
  apply list_elem_of_fmap_2. by apply (local_records_elem E xs r).
Qed.

Example single_mismatched_name_raises :
  (getPackages (Sample.env []) 1%positive (Sample.state_with 1%positive ["IPython"])).1
  = Raise ValueError.
Proof. vm_compute. reflexivity. Qed.

(** C3. There is a list with a name whose casing differs from the lower-case
    form of the name its local record carries (the name has an upper-case
    letter) on which [getPackages] returns without raising, having resolved
    that name locally, left it in the caller's list and looked it up at the
    registry as well. *)
Theorem C3_casing_mismatch_duplicate_lookup :
  ∃ (E : Env) (reqs : loc) (s s' : State) (xs xs' : list string) (r : string)
    (p q : PackageInfo) (out : list PackageInfo),
    heap s !! reqs = Some xs
    ∧ r ∈ xs
    ∧ Str.has_upper r = true
    ∧ local_outcome E r = Some p
    ∧ Str.lower (name p) ≠ r
    ∧ getPackages E reqs s = (Ok out, s')
    ∧ p ∈ out
    ∧ heap s' !! reqs = Some xs' ∧ r ∈ xs'
    ∧ q ∈ out ∧ pypi_outcome E r = Ok q ∧ name q = r
    ∧ pypi_url r ∈ net_log s'.
Proof.
  set (E := Sample.env []).
  set (s := Sample.state_with 1%positive ["IPython"; "ipython"]).
  destruct (getPackages E 1%positive s) as [res s'] eqn:Hrun.
  destruct (local_outcome E "IPython") as [p|] eqn:Hp; [|by vm_compute in Hp].
  assert (∃ out, res = Ok out) as [out ->].
  { vm_compute in Hrun. injection Hrun as <- _. by eexists. }
  assert ("IPython" ∈ ["IPython"; "ipython"]) as Hin by left.
  destruct (upper_case_name_resolved_twice E 1%positive s s' _ "IPython" p out
              eq_refl Hin eq_refl Hp Hrun)
    as (Hpout & (q & Hq & Hqout & Hqname) & (xs' & Hxs' & Hin') & Hlog).
  exists E, 1%positive, s, s', ["IPython"; "ipython"], xs', "IPython", p, q, out.
  split_and!; try done.
  vm_compute in Hp. injection Hp as <-. vm_compute. discriminate.
Qed.

Example mismatched_name_ex :
  getPackages (Sample.env []) 1%positive
    (Sample.state_with 1%positive ["IPython"; "ipython"])
  = (Ok [ {| name := "ipython"; version := PStr "8.12.0"; namever := "ipython-8.12.0";
             home_page := PStr "https://ipython.org";
             author := PStr "The IPython Development Team";
             size := 6200; license := PStr "BSD License" |};
          {| name := "IPython"; version := PStr "8.12.0"; namever := "IPython 8.12.0";
             home_page := PStr "https://example.org"; author := PStr "A. Author";
             size := 800000; license := PStr "Apache Software License" |} ],
     mkState {[ 1%positive := ["IPython"] ]} [pypi_url "IPython"]).
Proof. vm_compute. reflexivity. Qed.

(** ** Self-metadata reader *)

Lemma no_setup_license_falls_through (E : Env) :
  no_setup_license E → from_setup_cfg E = Ok None.
Proof.
  unfold from_setup_cfg. intros [->|(config & sec & -> & Hsec & Hopt)]; [done|].
  change (Ok config ≫= ?f) with (f config). cbv beta. by rewrite Hsec, Hopt.
Qed.

Lemma getClassifiersLicense_pyproject (E : Env) :
  no_setup_license E →
  getClassifiersLicense E
  = (r ← from_pyproject E;
     match r with
     | Some d => Ok d
     | None => Ok default_metadata
     end).
Proof.
  intros H. unfold getClassifiersLicense.
  by rewrite (no_setup_license_falls_through E H).
Qed.

Lemma from_pyproject_tool (E : Env) (pyproject : list (string * PyVal)) :
  pyproject_is E pyproject →
  from_pyproject E
  = (tool ← getitem (PDict pyproject) "tool";
     has_poetry ← py_contains "poetry" tool;
     if has_poetry : bool then
       poetry ← getitem tool "poetry"; Ok (Some (Plain poetry))
     else
       has_flit ← py_contains "flit" tool;
       if has_flit : bool then
         flit ← getitem tool "flit";
         md ← getitem flit "metadata";
         Ok (Some (Plain md))
       else
         match assoc "project" pyproject with
         | Some PNone | None => Ok None
         | Some project => Ok (Some (Plain project))
         end).
Proof.
  intros (text & Hread & Hload). unfold from_pyproject. rewrite Hread.
  change (Ok text ≫= ?f) with (f text). cbv beta. rewrite Hload. reflexivity.
Qed.

(** C4, as the code has it. When [setup.cfg] is absent or declares no license
    and [pyproject.toml] has a [project] table and a [tool] table, the
    [tool.poetry] table is returned when there is one, else the metadata of
    [tool.flit] when there is a [tool.flit] table, and the [project] table,
    which is looked at last, only when [tool] has neither. *)
Theorem C4_poetry_before_flit_before_project
    (E : Env) (pyproject tool : list (string * PyVal)) (project : PyVal) :
  no_setup_license E →
  pyproject_is E pyproject →
  assoc "project" pyproject = Some project →
  project ≠ PNone →
  assoc "tool" pyproject = Some (PDict tool) →
  getClassifiersLicense E
  = match assoc "poetry" tool with
    | Some poetry => Ok (Plain poetry)
    | None =>
        match assoc "flit" tool with
        | Some flit => Plain <$> getitem flit "metadata"
        | None => Ok (Plain project)
        end
    end.
Proof.
  intros Hsetup Hpy Hproject Hnone Htool.
  rewrite (getClassifiersLicense_pyproject E Hsetup).
  rewrite (from_pyproject_tool E pyproject Hpy).
  assert (getitem (PDict pyproject) "tool" = Ok (PDict tool)) as ->
    by (unfold getitem; by rewrite Htool).
  change (Ok (PDict tool) ≫= ?f) with (f (PDict tool)). cbv beta.
  unfold py_contains, getitem.
  destruct (assoc "poetry" tool) as [poetry|]; [reflexivity|].
  destruct (assoc "flit" tool) as [flit|].
  - change (bool_decide (is_Some (@None PyVal))) with false.
    change (bool_decide (is_Some (Some flit))) with true.
    change (Ok false ≫= ?f) with (f false). cbv beta iota.
    change (Ok true ≫= ?f) with (f true). cbv beta iota.
    change (Ok flit ≫= ?f) with (f flit). cbv beta.
    destruct flit as [| | | | |kvs]; try reflexivity.
    destruct (assoc "metadata" kvs); reflexivity.
  - change (bool_decide (is_Some (@None PyVal))) with false.
    change (Ok false ≫= ?f) with (f false). cbv beta iota.
    change (Ok false ≫= ?f) with (f false). cbv beta iota.
    rewrite Hproject. by destruct project.
Qed.

Lemma C4_poetry_before_flit_before_project_witness :
  getClassifiersLicense (Sample.env Sample.both_tables) = Ok (Plain Sample.poetry_table).
Proof.
  refine (C4_poetry_before_flit_before_project (Sample.env Sample.both_tables)
            Sample.both_tables [("poetry", Sample.poetry_table)] Sample.project_table
            (or_introl eq_refl) (ex_intro _ "pyproject" (conj eq_refl eq_refl))
            eq_refl _ eq_refl).
  discriminate.
Defined.

(** C4, with the [project] table as the answer, does not hold: with both
    tables present the [tool.poetry] table is returned. *)
Lemma C4_project_table_does_not_win :
  getClassifiersLicense (Sample.env Sample.both_tables) ≠ Ok (Plain Sample.project_table)
  ∧ ¬ project_table_wins.
Proof.
  split; [vm_compute; discriminate|].
  intros H.
  specialize (H (Sample.env Sample.both_tables) Sample.both_tables
                [("poetry", Sample.poetry_table)]
                Sample.project_table Sample.poetry_table
                (or_introl eq_refl) (ex_intro _ "pyproject" (conj eq_refl eq_refl))
                eq_refl eq_refl eq_refl).
  vm_compute in H. discriminate H.
Qed.

(** C9. When [setup.cfg] is absent or declares no license and the top-level
    table of [pyproject.toml] has no [tool] key, [getClassifiersLicense]
    raises [KeyError] for [tool]: neither the [project] table nor the default
    is returned. *)
Theorem C9_missing_tool_table_raises (E : Env) (pyproject : list (string * PyVal)) :
  no_setup_license E →
  pyproject_is E pyproject →
  assoc "tool" pyproject = None →
  getClassifiersLicense E = Raise (KeyError "tool").
Proof.
  intros Hsetup Hpy Htool.
  rewrite (getClassifiersLicense_pyproject E Hsetup).
  rewrite (from_pyproject_tool E pyproject Hpy).
  assert (getitem (PDict pyproject) "tool" = Raise (KeyError "tool")) as ->
    by (unfold getitem; by rewrite Htool).
  reflexivity.
Qed.

Lemma C9_missing_tool_table_raises_witness :
  assoc "project" Sample.project_only = Some Sample.project_table
  ∧ getClassifiersLicense (Sample.env Sample.project_only) = Raise (KeyError "tool").
Proof.
  split; [reflexivity|].
  apply (C9_missing_tool_table_raises (Sample.env Sample.project_only)
           Sample.project_only).
  - left. reflexivity.
  - exists "pyproject". split; reflexivity.
  - reflexivity.
Defined.

(** ** Splitting and joining *)

Lemma string_app_cons (a : ascii) (s t : string) :
  String a s +:+ t = String a (s +:+ t).
Proof. reflexivity. Qed.

Lemma string_app_assoc (a b c : string) : (a +:+ b) +:+ c = a +:+ (b +:+ c).
Proof.
  induction a as [|x a IH]; [done|]. rewrite !string_app_cons. by f_equal.
Qed.

Lemma string_app_nil_r (a : string) : a +:+ EmptyString = a.
Proof.
  induction a as [|x a IH]; [done|]. rewrite string_app_cons. by f_equal.
Qed.

Lemma string_app_length (a b : string) :
  String.length (a +:+ b) = (String.length a + String.length b)%nat.
Proof.
  induction a as [|x a IH]; [done|]. rewrite string_app_cons. simpl. by rewrite IH.
Qed.

Lemma prefix_app (sep s : string) :
  String.prefix sep s = true → ∃ rest, s = sep +:+ rest.
Proof.
  revert s. induction sep as [|a sep IH]; intros s.
  - exists s. done.
  - destruct s as [|b s]; simpl; [done|].
    destruct (ascii_dec a b) as [->|]; [|done].
    intros H. destruct (IH s H) as [rest ->]. by exists rest.
Qed.

Lemma split_go_skip (sep t cur rest : string) :
  Str.split_go sep (String.length t) cur (t +:+ rest) = Str.split_go sep 0 cur rest.
Proof.
  induction t as [|c t IH]; [done|]. rewrite string_app_cons. simpl. apply IH.
Qed.

Lemma split_go_nonempty (sep : string) (k : nat) (cur s : string) :
  Str.split_go sep k cur s ≠ [].
Proof.
  revert k cur. induction s as [|c s IH]; intros k cur; [done|].
  cbn [Str.split_go].
  destruct k; [|apply IH]. destruct (String.prefix sep (String c s)); [done|apply IH].
Qed.

Lemma join_cons (sep x : string) (l : list string) :
  l ≠ [] → Str.join sep (x :: l) = x +:+ sep +:+ Str.join sep l.
Proof. by destruct l. Qed.

Lemma join_split_go (sep : string) (n : nat) :
  sep ≠ EmptyString →
  ∀ cur s, (String.length s ≤ n)%nat →
           Str.join sep (Str.split_go sep 0 cur s) = cur +:+ s.
Proof.
  intros Hsep. induction n as [|n IH]; intros cur s Hlen.
  - destruct s as [|c s]; [|simpl in Hlen; lia].
    simpl. by rewrite string_app_nil_r.
  - destruct s as [|c s]; [simpl; by rewrite string_app_nil_r|].
    cbn [Str.split_go]. destruct (String.prefix sep (String c s)) eqn:Hpre.
    + apply prefix_app in Hpre as [rest Hrest].
      destruct sep as [|a sep]; [done|]. rewrite string_app_cons in Hrest.
      injection Hrest as -> ->. cbn [String.length].
      replace (S (String.length sep) - 1)%nat with (String.length sep) by lia.
      rewrite split_go_skip.
      rewrite join_cons by apply split_go_nonempty.
      rewrite IH.
      * rewrite !string_app_cons. done.
      * simpl in Hlen. rewrite string_app_length in Hlen. lia.
    + rewrite IH by (simpl in Hlen; lia). by rewrite string_app_assoc.
Qed.

(** Joining the segments of a split with the separator gives the text back. *)
Lemma join_split (s sep : string) :
  sep ≠ EmptyString → Str.join sep (Str.split s sep) = s.
Proof.
  intros Hsep. unfold Str.split. by rewrite (join_split_go sep (String.length s)).
Qed.

(** * Further properties *)

(** ** Classifier parser *)

Lemma collected_labels_app (l1 l2 : list string) :
  collected_labels (l1 ++ l2) = collected_labels l1 ++ collected_labels l2.
Proof. unfold collected_labels. by rewrite filter_app, fmap_app, filter_app. Qed.

Lemma license_of_labels (classifiers : list string) :
  licenseFromClassifierlist classifiers
  = match collected_labels classifiers with
    | [] => UNKNOWN
    | labels => Str.join ", " labels
    end.
Proof.
  unfold licenseFromClassifierlist. rewrite classifier_fold.
  by destruct (collected_labels classifiers).
Qed.

Lemma join_app (sep : string) (a b : list string) :
  a ≠ [] → b ≠ [] →
  Str.join sep (a ++ b) = Str.join sep a +:+ sep +:+ Str.join sep b.
Proof.
  intros Ha Hb. induction a as [|x a IH]; [done|].
  destruct a as [|y a].
  - simpl app. by rewrite join_cons.
  - change ((x :: y :: a) ++ b) with (x :: (y :: a) ++ b).
    rewrite !join_cons by done. rewrite IH by done.
    by rewrite !string_app_assoc.
Qed.

(** X1. A list of classifiers none of which begins with "License" gives
    "UNKNOWN". *)
Theorem X1_no_license_classifier_gives_unknown (classifiers : list string) :
  Forall (λ val, Str.startswith val "License" = false) classifiers →
  licenseFromClassifierlist classifiers = "UNKNOWN".
Proof.
  intros Hall. rewrite license_of_labels.
  assert (collected_labels classifiers = []) as ->; [|done].
  unfold collected_labels.
  induction Hall as [|val rest Hval _ IH]; [done|].
  rewrite filter_cons. rewrite Hval.
  destruct (decide (false = true)) as [|_]; done.
Qed.

Lemma X1_no_license_classifier_gives_unknown_witness :
  licenseFromClassifierlist
    ["Programming Language :: Python :: 3"; "Topic :: Software Development";
     "Typing :: Typed"; "Development Status :: License pending"]
  = "UNKNOWN".
Proof.
  apply X1_no_license_classifier_gives_unknown.
  repeat constructor.
Defined.

(** X2. The labels of two lists put end to end are the labels of the first
    followed by those of the second: the license of the whole is the two
    licenses joined by ", " when both lists give a label, and the license of
    the one that gives a label when the other gives none. *)
Theorem X2_license_of_concatenation (l1 l2 : list string) :
  collected_labels (l1 ++ l2) = collected_labels l1 ++ collected_labels l2
  ∧ (collected_labels l1 ≠ [] → collected_labels l2 ≠ [] →
     licenseFromClassifierlist (l1 ++ l2)
     = licenseFromClassifierlist l1 +:+ ", " +:+ licenseFromClassifierlist l2)
  ∧ (collected_labels l2 = [] →
     licenseFromClassifierlist (l1 ++ l2) = licenseFromClassifierlist l1)
  ∧ (collected_labels l1 = [] →
     licenseFromClassifierlist (l1 ++ l2) = licenseFromClassifierlist l2).
Proof.
  split; [apply collected_labels_app|].
  rewrite !license_of_labels, collected_labels_app.
  split_and!.
  - intros H1 H2.
    destruct (collected_labels l1) as [|a la]; [done|].
    destruct (collected_labels l2) as [|b lb]; [done|].
    by rewrite <- (join_app ", " (a :: la) (b :: lb)).
  - intros ->. by rewrite app_nil_r.
  - intros ->. done.
Qed.

Lemma X2_license_of_concatenation_witness :
  licenseFromClassifierlist
    (["License :: OSI Approved :: MIT License"; "Typing :: Typed"]
     ++ ["License :: OSI Approved"; "License :: Public Domain"])
  = licenseFromClassifierlist ["License :: OSI Approved :: MIT License"; "Typing :: Typed"]
    +:+ ", "
    +:+ licenseFromClassifierlist ["License :: OSI Approved"; "License :: Public Domain"].
Proof.
  apply (X2_license_of_concatenation
           ["License :: OSI Approved :: MIT License"; "Typing :: Typed"]
           ["License :: OSI Approved"; "License :: Public Domain"]);
    vm_compute; discriminate.
Defined.

Lemma prefix_nonempty_nil (sep : string) :
  sep ≠ EmptyString → String.prefix sep EmptyString = false.
Proof. by destruct sep. Qed.

Lemma no_start_contains (sep cur : string) :
  sep ≠ EmptyString → no_start sep cur EmptyString = true →
  Str.contains sep cur = false.
Proof.
  intros Hsep. induction cur as [|c cur IH]; intros H.
  - cbn [Str.contains]. by rewrite prefix_nonempty_nil.
  - cbn [no_start] in H. rewrite string_app_nil_r in H.
    apply andb_true_iff in H as [H1 H2]. apply negb_true_iff in H1.
    cbn [Str.contains]. by rewrite H1, IH.
Qed.

Lemma no_start_snoc (sep cur s : string) (c : ascii) :
  no_start sep cur (String c s) = true →
  String.prefix sep (String c s) = false →
  no_start sep (cur +:+ String c EmptyString) s = true.
Proof.
  intros H Hpre. induction cur as [|x cur IH].
  - change (EmptyString +:+ String c EmptyString) with (String c EmptyString).
    cbn [no_start]. change (String c EmptyString +:+ s) with (String c s).
    by rewrite Hpre.
  - cbn [no_start] in H. apply andb_true_iff in H as [H1 H2].
    rewrite string_app_cons. cbn [no_start].
    rewrite IH by done. rewrite andb_true_r.
    rewrite <- string_app_cons, string_app_assoc.
    change (String c EmptyString +:+ s) with (String c s). by rewrite H1.
Qed.

Lemma last_cons_nonempty (x : string) (l : list string) :
  l ≠ [] → Str.last_segment (x :: l) = Str.last_segment l.
Proof. by destruct l. Qed.

Lemma last_segment_clean (sep : string) (n : nat) :
  sep ≠ EmptyString →
  ∀ cur s, (String.length s ≤ n)%nat → no_start sep cur s = true →
           Str.contains sep (Str.last_segment (Str.split_go sep 0 cur s)) = false.
Proof.
  intros Hsep. induction n as [|n IH]; intros cur s Hlen Hcur.
  - destruct s as [|c s]; [|simpl in Hlen; lia]. by apply no_start_contains.
  - destruct s as [|c s]; [by apply no_start_contains|].
    cbn [Str.split_go]. destruct (String.prefix sep (String c s)) eqn:Hpre.
    + apply prefix_app in Hpre as [rest Hrest].
      destruct sep as [|a sep]; [done|]. rewrite string_app_cons in Hrest.
      injection Hrest as -> ->. cbn [String.length].
      replace (S (String.length sep) - 1)%nat with (String.length sep) by lia.
      rewrite split_go_skip.
      rewrite last_cons_nonempty by apply split_go_nonempty.
      apply IH; [|done]. simpl in Hlen. rewrite string_app_length in Hlen. lia.
    + apply IH; [simpl in Hlen; lia|]. by apply no_start_snoc.
Qed.

(** X3. No label that the parser collects contains the separator " :: ", and
    none is "OSI Approved". *)
Theorem X3_labels_hold_no_separator (classifiers : list string) (label : string) :
  label ∈ collected_labels classifiers →
  Str.contains " :: " label = false ∧ label ≠ "OSI Approved".
Proof.
  unfold collected_labels. intros H.
  apply list_elem_of_filter in H as [Hosi H]. split; [|done].
  apply list_elem_of_fmap in H as (val & -> & _).
  by apply (last_segment_clean " :: " (String.length val)).
Qed.

Lemma X3_labels_hold_no_separator_witness :
  Str.contains " :: " "BSD License" = false ∧ "BSD License" ≠ "OSI Approved".
Proof.
  apply (X3_labels_hold_no_separator
           ["Framework :: IPython"; "License :: OSI Approved :: BSD License"]).
  vm_compute. left.
Defined.

(** ** Local resolver *)

Lemma local_loop_from (E : Env) (l1 l2 : list string) (s s1 : State)
    (out1 : list PackageInfo) :
  getPackagesFromLocal E l1 s = (Ok out1, s1) →
  getPackagesFromLocal E (l1 ++ l2) s = local_loop E l2 out1 s1.
Proof.
  unfold getPackagesFromLocal. intros H. by rewrite local_loop_app, bind_run, H.
Qed.

Lemma local_step_skip_drop (E : Env) (r : string) :
  (∀ acc s, local_step E acc r s = (Ok acc, s)) →
  ∀ l1 l2 s,
    getPackagesFromLocal E (l1 ++ r :: l2) s = getPackagesFromLocal E (l1 ++ l2) s.
Proof.
  intros Hstep l1 l2 s. unfold getPackagesFromLocal.
  rewrite !local_loop_app, !bind_run.
  destruct (local_loop E l1 [] s) as [[acc|e] s1]; [|done].
  simpl. by rewrite bind_run, Hstep.
Qed.

(** X4. A name whose metadata is found but whose package cannot be imported
    under that name (the lookup of its files raises [ModuleNotFoundError]) is
    passed over like an absent one: no record, no exception, same outcome of
    the resolver with the name as without it. *)
Theorem X4_unimportable_name_is_skipped (E : Env) (r : string) (md : PackageMetadata) :
  metadata E r = Ok md →
  files E r = Raise ModuleNotFoundError →
  (∀ acc s, local_step E acc r s = (Ok acc, s))
  ∧ local_outcome E r = None
  ∧ ∀ l1 l2 s,
      getPackagesFromLocal E (l1 ++ r :: l2) s = getPackagesFromLocal E (l1 ++ l2) s.
Proof.
  intros Hmd Hfiles.
  assert (∀ s, local_record E r s = (Raise ModuleNotFoundError, s)) as Hrec.
  { intros s. unfold local_record. rewrite bind_run. unfold lift at 1. rewrite Hmd.
    cbv zeta. rewrite bind_run. unfold try_except at 1. rewrite bind_run.
    unfold lift at 1. by rewrite Hfiles. }
  assert (∀ acc s, local_step E acc r s = (Ok acc, s)) as Hstep.
  { intros acc s. unfold local_step, try_except. by rewrite bind_run, Hrec. }
  split_and!; [done| |by apply local_step_skip_drop].
  unfold local_outcome. by rewrite Hrec.
Qed.

Lemma X4_unimportable_name_is_skipped_witness :
  getPackagesFromLocal (Sample.env []) ["six"; "ipython"; "IPython"] empty_state
  = getPackagesFromLocal (Sample.env []) ["six"; "IPython"] empty_state.
Proof.
  apply (X4_unimportable_name_is_skipped (Sample.env []) "ipython"
           Sample.ipython_metadata eq_refl eq_refl).
Defined.

(** X5. An exception of the metadata lookup that is neither
    [PackageNotFoundError] nor [ModuleNotFoundError] is not caught: the
    resolver raises it at that name and the records built so far are lost. *)
Theorem X5_other_metadata_errors_propagate
    (E : Env) (l1 l2 : list string) (r : string) (s s1 : State)
    (out1 : list PackageInfo) (e : exn) :
  getPackagesFromLocal E l1 s = (Ok out1, s1) →
  metadata E r = Raise e →
  catches_not_found e = false →
  getPackagesFromLocal E (l1 ++ r :: l2) s = (Raise e, s1).
Proof.
  intros Hl1 Hmd He. rewrite (local_loop_from E l1 (r :: l2) s s1 out1 Hl1).
  simpl. rewrite bind_run. unfold local_step, try_except.
  rewrite bind_run. unfold local_record. rewrite bind_run. unfold lift at 1.
  by rewrite Hmd, He.
Qed.

Lemma X5_other_metadata_errors_propagate_witness :
  getPackagesFromLocal
    (Demo.with_metadata (λ n, if decide (n = "") then Raise ValueError
                              else metadata (Sample.env []) n))
    (["six"] ++ "" :: ["IPython"]) empty_state
  = (Raise ValueError, empty_state).
Proof.
  eapply (X5_other_metadata_errors_propagate _ ["six"] ["IPython"] "" empty_state).
  - vm_compute. reflexivity.
  - reflexivity.
  - reflexivity.
Defined.

(** X6. When the files of the tree outside [__pycache__] have a positive
    sum, that sum is the size of the record and no request is sent. *)
Theorem X6_positive_local_size_needs_no_request
    (E : Env) (r : string) (md : PackageMetadata) (path : Path) :
  metadata E r = Ok md →
  files E r = Ok path →
  0 < local_size path →
  (∀ nm s, getModuleSize E path nm s = (Ok (local_size path), s))
  ∧ ∃ p, size p = local_size path
         ∧ ∀ acc s, local_step E acc r s = (Ok (acc ++ [p]), s).
Proof.
  intros Hmd Hfiles Hpos.
  assert (∀ nm s, getModuleSize E path nm s = (Ok (local_size path), s)) as Hsize.
  { intros nm s. unfold getModuleSize. cbv zeta.
    by destruct (Z.ltb_spec 0 (local_size path)); [|lia]. }
  split; [done|].
  eexists (mkPackageInfo _ _ _ _ _ (local_size path) _). split; [done|].
  intros acc s. unfold local_step, try_except at 1. rewrite bind_run.
  unfold local_record. rewrite bind_run. unfold lift at 1. rewrite Hmd.
  cbv zeta. rewrite bind_run. unfold try_except at 1. rewrite bind_run.
  unfold lift at 1. rewrite Hfiles, Hsize. reflexivity.
Qed.

Lemma X6_positive_local_size_needs_no_request_witness :
  local_size Sample.ipython_tree = 6200
  ∧ getPackagesFromLocal (Sample.env []) ["IPython"] empty_state
    = (Ok [ {| name := "ipython"; version := PStr "8.12.0"; namever := "ipython-8.12.0";
               home_page := PStr "https://ipython.org";
               author := PStr "The IPython Development Team";
               size := 6200; license := PStr "BSD License" |} ],
       empty_state).
Proof.
  split; [reflexivity|].
  destruct (X6_positive_local_size_needs_no_request (Sample.env []) "IPython"
              Sample.ipython_metadata Sample.ipython_tree eq_refl eq_refl eq_refl)
    as [_ [p [_ Hstep]]].
  unfold getPackagesFromLocal. simpl. rewrite bind_run, Hstep.
  vm_compute in Hstep. specialize (Hstep [] empty_state).
  injection Hstep as <-. reflexivity.
Defined.

(** X7. The inner handler also covers the request for the size: when the
    local sum is 0 and taking the size out of the registry's answer raises
    [TypeError] (the answer has no number there), the exception is swallowed
    and the record has size 0, one request having been sent. *)
Theorem X7_type_error_of_registry_size_is_swallowed
    (E : Env) (r : string) (md : PackageMetadata) (path : Path)
    (request : Response) (response : PyVal) :
  metadata E r = Ok md →
  files E r = Ok path →
  local_size path = 0 →
  requests_get E (pypi_url (md_get md "Name" UNKNOWN)) = Ok request →
  json request = Ok response →
  registry_size E response = Raise TypeError →
  ∃ p, size p = 0
       ∧ ∀ acc s,
           local_step E acc r s
           = (Ok (acc ++ [p]),
              mkState (heap s) (net_log s ++ [pypi_url (md_get md "Name" UNKNOWN)])).
Proof.
  intros Hmd Hfiles Hzero Hget Hjson Hsize.
  eexists (mkPackageInfo _ _ _ _ _ 0 _). split; [done|].
  intros acc s. unfold local_step, try_except at 1. rewrite bind_run.
  unfold local_record. rewrite bind_run. unfold lift at 1. rewrite Hmd.
  cbv zeta. rewrite bind_run. unfold try_except at 1. rewrite bind_run.
  unfold lift at 1. rewrite Hfiles. unfold getModuleSize. rewrite Hzero.
  change (0 <? 0) with false. cbv iota zeta.
  rewrite bind_run. unfold http_get. rewrite Hget.
  rewrite bind_run. unfold lift at 1. rewrite Hjson.
  unfold lift at 1. rewrite Hsize.
  change (catches_TypeError TypeError) with true. cbv iota.
  reflexivity.
Qed.

Lemma X7_type_error_of_registry_size_is_swallowed_witness :
  ∃ p, size p = 0
       ∧ ∀ acc s,
           local_step
             (Demo.with_registry
                (Demo.serve (Demo.document true true (PList [PDict [("size", PNone)]]))))
             acc "hollow" s
           = (Ok (acc ++ [p]), mkState (heap s) (net_log s ++ [pypi_url "hollow"])).
Proof.
  eapply (X7_type_error_of_registry_size_is_swallowed
            (Demo.with_registry
               (Demo.serve (Demo.document true true (PList [PDict [("size", PNone)]]))))
            "hollow" Sample.hollow_metadata Sample.hollow_tree);
    reflexivity.
Defined.

Lemma local_loop_frame (E : Env) (xs : list string) (acc : list PackageInfo) (s : State) :
  heap (local_loop E xs acc s).2 = heap s
  ∧ ∃ l, net_log (local_loop E xs acc s).2 = net_log s ++ l.
Proof.
  revert acc s. induction xs as [|r xs IH]; intros acc s; simpl.
  - split; [done|]. exists []. by rewrite app_nil_r.
  - rewrite bind_run. destruct (local_step_run E acc r s) as [l ->]. cbv zeta.
    destruct (local_record E r empty_state).1 as [p|e].
    + destruct (IH (acc ++ [p]) (mkState (heap s) (net_log s ++ l))) as [-> [l' ->]].
      split; [done|]. exists (l ++ l'). simpl. by rewrite app_assoc.
    + destruct (catches_not_found e).
      * destruct (IH acc (mkState (heap s) (net_log s ++ l))) as [-> [l' ->]].
        split; [done|]. exists (l ++ l'). simpl. by rewrite app_assoc.
      * split; [done|]. by exists l.
Qed.

Lemma local_records_length (E : Env) (xs : list string) :
  (length (local_records E xs) ≤ length xs)%nat.
Proof.
  unfold local_records. induction xs as [|r xs IH]; simpl; [done|].
  destruct (local_outcome E r); simpl.
  - apply le_n_S. exact IH.
  - apply Nat.le_le_succ_r. exact IH.
Qed.

(** X8. Whatever its outcome, the local resolver leaves every list of the
    store as it was and only adds to the log of requests; when it returns,
    it returns at most one record per name. *)
Theorem X8_local_resolver_frame (E : Env) (xs : list string) (s : State) :
  heap (getPackagesFromLocal E xs s).2 = heap s
  ∧ (∃ l, net_log (getPackagesFromLocal E xs s).2 = net_log s ++ l)
  ∧ ∀ out s', getPackagesFromLocal E xs s = (Ok out, s') →
              (length out ≤ length xs)%nat.
Proof.
  destruct (local_loop_frame E xs [] s) as [Hheap Hlog].
  split_and!; [done|done|].
  intros out s' H. apply getPackagesFromLocal_ok in H as [-> _].
  apply local_records_length.
Qed.

(** X9. The fields of a local record other than its size come from the
    metadata alone: a field that is absent is "UNKNOWN", the name with the
    version is the two joined by "-", and the license is the classifiers'
    license, or the [License] field when the classifiers give "UNKNOWN". *)
Theorem X9_local_record_fields (E : Env) (r : string) (p : PackageInfo) :
  local_outcome E r = Some p →
  ∃ md, metadata E r = Ok md
        ∧ name p = md_get md "Name" "UNKNOWN"
        ∧ version p = PStr (md_get md "Version" "UNKNOWN")
        ∧ namever p = md_get md "Name" "UNKNOWN" +:+ "-" +:+ md_get md "Version" "UNKNOWN"
        ∧ home_page p = PStr (md_get md "Home-page" "UNKNOWN")
        ∧ author p = PStr (md_get md "Author" "UNKNOWN")
        ∧ license p
          = PStr (let lice := licenseFromClassifierlist
                                (snd <$> filter (λ kv, kv.1 = "Classifier") md) in
                  if decide (lice = "UNKNOWN") then md_get md "License" "UNKNOWN"
                  else lice).
Proof.
  unfold local_outcome, local_record. rewrite bind_run. unfold lift at 1.
  destruct (metadata E r) as [md|e]; [|done].
  cbv zeta. rewrite bind_run.
  destruct (try_except _ _ _ _) as [[sz|e] s1]; [|done].
  unfold mret, M_ret. simpl. intros [= <-]. exists md. done.
Qed.

Lemma X9_local_record_fields_witness :
  ∃ md, metadata (Sample.env []) "six" = Ok md
        ∧ "six" = md_get md "Name" "UNKNOWN"
        ∧ PStr "1.16.0" = PStr (md_get md "Version" "UNKNOWN")
        ∧ "six-1.16.0" = md_get md "Name" "UNKNOWN" +:+ "-" +:+ md_get md "Version" "UNKNOWN"
        ∧ PStr "UNKNOWN" = PStr (md_get md "Home-page" "UNKNOWN")
        ∧ PStr "UNKNOWN" = PStr (md_get md "Author" "UNKNOWN")
        ∧ PStr "MIT"
          = PStr (let lice := licenseFromClassifierlist
                                (snd <$> filter (λ kv, kv.1 = "Classifier") md) in
                  if decide (lice = "UNKNOWN") then md_get md "License" "UNKNOWN"
                  else lice).
Proof.
  apply (X9_local_record_fields (Sample.env []) "six"
           {| name := "six"; version := PStr "1.16.0"; namever := "six-1.16.0";
              home_page := PStr "UNKNOWN"; author := PStr "UNKNOWN";
              size := 0; license := PStr "MIT" |}).
  vm_compute. reflexivity.
Defined.

(** ** Remote resolver *)

Lemma pypi_raises (E : Env) (l1 l2 : list string) (r : string) (s s1 : State)
    (out1 : list PackageInfo) (e : exn) :
  packageInfoFromPypi E l1 s = (Ok out1, s1) →
  pypi_outcome E r = Raise e →
  packageInfoFromPypi E (l1 ++ r :: l2) s
  = (Raise e, mkState (heap s) (net_log s ++ (pypi_url <$> l1) ++ [pypi_url r])).
Proof.
  intros Hl1 Hout.
  destruct (packageInfoFromPypi_ok E l1 s out1 s1 Hl1) as (_ & _ & Hheap & Hlog).
  unfold packageInfoFromPypi in *. rewrite pypi_loop_app, bind_run, Hl1.
  simpl. rewrite bind_run, pypi_step_run, Hout. simpl.
  by rewrite Hheap, Hlog, <- app_assoc.
Qed.

(** X10. When the remote resolver returns, it returns one record per name, in
    the order of the names and under the names as given (a name given twice
    is asked for twice), each record being what the registry gives for the
    name; it has sent one request per name, in order, and has left the store
    as it was. *)
Theorem X10_remote_resolver_one_record_per_name
    (E : Env) (xs : list string) (s s' : State) (out : list PackageInfo) :
  packageInfoFromPypi E xs s = (Ok out, s') →
  name <$> out = xs
  ∧ length out = length xs
  ∧ Forall2 (λ pkg p, pypi_outcome E pkg = Ok p) xs out
  ∧ heap s' = heap s
  ∧ net_log s' = net_log s ++ (pypi_url <$> xs).
Proof.
  intros H. apply packageInfoFromPypi_ok in H as (Hn & Hall & Hheap & Hlog).
  split_and!; try done. by rewrite <- Hn, length_fmap.
Qed.

Lemma X10_remote_resolver_one_record_per_name_witness :
  ∃ out s',
    packageInfoFromPypi (Sample.env []) ["flask"; "IPython"; "flask"] empty_state
    = (Ok out, s')
    ∧ name <$> out = ["flask"; "IPython"; "flask"]
    ∧ net_log s' = [pypi_url "flask"; pypi_url "IPython"; pypi_url "flask"].
Proof.
  destruct (packageInfoFromPypi (Sample.env []) ["flask"; "IPython"; "flask"] empty_state)
    as [[out|e] s'] eqn:Hrun; [|by vm_compute in Hrun].
  exists out, s'.
  destruct (X10_remote_resolver_one_record_per_name _ _ _ _ _ Hrun)
    as (Hn & _ & _ & _ & Hlog).
  done.
Defined.

(** X11. An answer of the registry that is a JSON object without the key
    [info], as the document served for a name the registry does not know,
    makes the remote resolver raise [KeyError] for [info]. *)
Theorem X11_answer_without_info_raises
    (E : Env) (l1 l2 : list string) (r : string) (s s1 : State)
    (out1 : list PackageInfo) (request : Response) (kvs : list (string * PyVal)) :
  packageInfoFromPypi E l1 s = (Ok out1, s1) →
  requests_get E (pypi_url r) = Ok request →
  json request = Ok (PDict kvs) →
  assoc "info" kvs = None →
  packageInfoFromPypi E (l1 ++ r :: l2) s
  = (Raise (KeyError "info"),
     mkState (heap s) (net_log s ++ (pypi_url <$> l1) ++ [pypi_url r])).
Proof.
  intros Hl1 Hget Hjson Hinfo. apply (pypi_raises E l1 l2 r s s1 out1); [done|].
  unfold pypi_outcome. rewrite Hget.
  change (Ok request ≫= ?f) with (f request). cbv beta. rewrite Hjson.
  change (Ok (PDict kvs) ≫= ?f) with (f (PDict kvs)).
  unfold pypi_record.
  assert (getitem (PDict kvs) "info" = Raise (KeyError "info")) as ->
    by (unfold getitem; by rewrite Hinfo).
  reflexivity.
Qed.

Lemma X11_answer_without_info_raises_witness :
  packageInfoFromPypi (Demo.with_registry (Demo.serve Demo.not_found_document))
    ([] ++ "nosuchpkg" :: ["flask"]) empty_state
  = (Raise (KeyError "info"), mkState ∅ [pypi_url "nosuchpkg"]).
Proof.
  eapply (X11_answer_without_info_raises
            (Demo.with_registry (Demo.serve Demo.not_found_document))
            [] ["flask"] "nosuchpkg" empty_state);
    reflexivity.
Defined.

(** X12. An answer whose [info] is complete but whose [urls] is an empty
    list (a project without files) makes the remote resolver raise
    [IndexError]: it returns no record for the name. *)
Theorem X12_answer_without_files_raises
    (E : Env) (pkg : string) (request : Response) (kvs : list (string * PyVal))
    (info classifiers ver home auth : PyVal) (vals : list string) :
  requests_get E (pypi_url pkg) = Ok request →
  json request = Ok (PDict kvs) →
  assoc "info" kvs = Some info →
  getitem info "classifiers" = Ok classifiers →
  iter_strings classifiers = Ok vals →
  getitem info "version" = Ok ver →
  getitem info "home_page" = Ok home →
  getitem info "author" = Ok auth →
  assoc "urls" kvs = Some (PList []) →
  pypi_outcome E pkg = Raise IndexError
  ∧ ∀ s, packageInfoFromPypi E [pkg] s
         = (Raise IndexError, mkState (heap s) (net_log s ++ [pypi_url pkg])).
Proof.
  intros Hget Hjson Hinfo Hcls Hvals Hver Hhome Hauth Hurls.
  assert (pypi_outcome E pkg = Raise IndexError) as Hout.
  { unfold pypi_outcome. rewrite Hget.
    change (Ok request ≫= ?f) with (f request). cbv beta. rewrite Hjson.
    change (Ok (PDict kvs) ≫= ?f) with (f (PDict kvs)).
    unfold pypi_record.
    assert (getitem (PDict kvs) "info" = Ok info) as ->
      by (unfold getitem; by rewrite Hinfo).
    change (Ok info ≫= ?f) with (f info). cbv beta. rewrite Hcls.
    change (Ok classifiers ≫= ?f) with (f classifiers). cbv beta. rewrite Hvals.
    change (Ok vals ≫= ?f) with (f vals). cbv beta zeta. rewrite Hver.
    change (Ok ver ≫= ?f) with (f ver). cbv beta. rewrite Hhome.
    change (Ok home ≫= ?f) with (f home). cbv beta. rewrite Hauth.
    change (Ok auth ≫= ?f) with (f auth). cbv beta.
    unfold registry_size.
    assert (getitem (PDict kvs) "urls" = Ok (PList [])) as ->
      by (unfold getitem; by rewrite Hurls).
    reflexivity. }
  split; [done|]. intros s.
  pose proof (pypi_raises E [] [] pkg s s [] IndexError eq_refl Hout) as H.
  exact H.
Qed.

Lemma X12_answer_without_files_raises_witness :
  packageInfoFromPypi
    (Demo.with_registry (Demo.serve (Demo.document true true (PList []))))
    ["flask"] empty_state
  = (Raise IndexError, mkState ∅ [pypi_url "flask"]).
Proof.
  eapply (X12_answer_without_files_raises
            (Demo.with_registry (Demo.serve (Demo.document true true (PList []))))
            "flask"); reflexivity.
Defined.

(** X13. A record of the remote resolver carries the name as given, the
    [version], [home_page] and [author] of [info], the name and the version
    joined by a space, the size of the last entry of [urls], and as license
    the classifiers' license, [info]'s [license] being read only when the
    classifiers give "UNKNOWN". *)
Theorem X13_remote_record_fields
    (E : Env) (pkg : string) (response : PyVal) (p : PackageInfo) :
  pypi_record E pkg response = Ok p →
  ∃ info classifiers vals,
    getitem response "info" = Ok info
    ∧ getitem info "classifiers" = Ok classifiers
    ∧ iter_strings classifiers = Ok vals
    ∧ name p = pkg
    ∧ getitem info "version" = Ok (version p)
    ∧ namever p = pkg +:+ " " +:+ format_str E (version p)
    ∧ getitem info "home_page" = Ok (home_page p)
    ∧ getitem info "author" = Ok (author p)
    ∧ registry_size E response = Ok (size p)
    ∧ if decide (licenseFromClassifierlist vals ≠ "UNKNOWN")
      then license p = PStr (licenseFromClassifierlist vals)
      else getitem info "license" = Ok (license p).
Proof.
  unfold pypi_record. intros H.
  apply result_bind_ok in H as (info & Hinfo & H).
  apply result_bind_ok in H as (classifiers & Hcls & H).
  apply result_bind_ok in H as (vals & Hvals & H). cbv zeta in H.
  apply result_bind_ok in H as (ver & Hver & H).
  apply result_bind_ok in H as (home & Hhome & H).
  apply result_bind_ok in H as (auth & Hauth & H).
  apply result_bind_ok in H as (sz & Hsz & H).
  apply result_bind_ok in H as (lice & Hlice & H).
  injection H as <-. exists info, classifiers, vals. simpl.
  split_and!; try done.
  unfold UNKNOWN in Hlice.
  destruct (decide (licenseFromClassifierlist vals ≠ "UNKNOWN")); [|done].
  by injection Hlice.
Qed.

Lemma X13_remote_record_fields_witness :
  ∃ info classifiers vals,
    getitem Demo.flask_document "info" = Ok info
    ∧ getitem info "classifiers" = Ok classifiers
    ∧ iter_strings classifiers = Ok vals
    ∧ name Demo.flask_record = "flask"
    ∧ getitem info "version" = Ok (version Demo.flask_record)
    ∧ namever Demo.flask_record
      = "flask" +:+ " " +:+ format_str (Sample.env []) (version Demo.flask_record)
    ∧ getitem info "home_page" = Ok (home_page Demo.flask_record)
    ∧ getitem info "author" = Ok (author Demo.flask_record)
    ∧ registry_size (Sample.env []) Demo.flask_document = Ok (size Demo.flask_record)
    ∧ if decide (licenseFromClassifierlist vals ≠ "UNKNOWN")
      then license Demo.flask_record = PStr (licenseFromClassifierlist vals)
      else getitem info "license" = Ok (license Demo.flask_record).
Proof.
  apply (X13_remote_record_fields (Sample.env []) "flask" Demo.flask_document
           Demo.flask_record).
  vm_compute. reflexivity.
Defined.

(** ** Aggregator *)

Lemma pypi_loop_frame (E : Env) (xs : list string) (acc : list PackageInfo) (s : State) :
  heap (pypi_loop E xs acc s).2 = heap s.
Proof.
  revert acc s. induction xs as [|r xs IH]; intros acc s; simpl; [done|].
  rewrite bind_run, pypi_step_run.
  destruct (pypi_outcome E r) as [p|e]; simpl; [|done]. by rewrite IH.
Qed.

Lemma for_each_app {A : Type} (l1 l2 : list A) (body : A → M unit) (s : State) :
  for_each (l1 ++ l2) body s = (for_each l1 body ≫= λ _, for_each l2 body) s.
Proof.
  revert s. induction l1 as [|x l1 IH]; intros s; [done|].
  simpl. rewrite !bind_run. destruct (body x s) as [[[]|e] s1]; [|done].
  by rewrite IH, bind_run.
Qed.

(** X14. When [getPackages] returns, it returns as many records as the list
    had names. *)
Theorem X14_one_record_per_input_name
    (E : Env) (reqs : loc) (s s' : State) (xs : list string) (out : list PackageInfo) :
  heap s !! reqs = Some xs →
  getPackages E reqs s = (Ok out, s') →
  length out = length xs.
Proof.
  intros Hxs Hrun.
  apply getPackages_ok_inv with (xs := xs) in Hrun
    as (localReqs & s1 & xs' & onlineReqs & _ & Hrm & Hpypi & ->); [|done].
  apply remove_all_length in Hrm. rewrite length_fmap in Hrm.
  apply packageInfoFromPypi_ok in Hpypi as (Hn & _).
  rewrite length_app, Hrm. f_equal. by rewrite <- Hn, length_fmap.
Qed.

Lemma X14_one_record_per_input_name_witness :
  length [ {| name := "ipython"; version := PStr "8.12.0"; namever := "ipython-8.12.0";
              home_page := PStr "https://ipython.org";
              author := PStr "The IPython Development Team";
              size := 6200; license := PStr "BSD License" |};
           {| name := "IPython"; version := PStr "8.12.0"; namever := "IPython 8.12.0";
              home_page := PStr "https://example.org"; author := PStr "A. Author";
              size := 800000; license := PStr "Apache Software License" |} ]
  = length ["IPython"; "ipython"].
Proof.
  eapply (X14_one_record_per_input_name (Sample.env []) 1%positive
            (Sample.state_with 1%positive ["IPython"; "ipython"])).
  - reflexivity.
  - vm_compute. reflexivity.
Defined.

(** X15. When a name resolves locally and the lower-case form of the name its
    record carries is not in the list, [getPackages] raises [ValueError] at
    the removals, and the remote resolver has sent no request. *)
Theorem X15_removal_of_absent_name_raises
    (E : Env) (reqs : loc) (s s1 : State) (xs : list string) (r : string)
    (p : PackageInfo) (localReqs : list PackageInfo) :
  heap s !! reqs = Some xs →
  r ∈ xs →
  local_outcome E r = Some p →
  Str.lower (name p) ∉ xs →
  getPackagesFromLocal E xs s = (Ok localReqs, s1) →
  ∃ s', getPackages E reqs s = (Raise ValueError, s') ∧ net_log s' = net_log s1.
Proof.
  intros Hxs Hin Hp Hnin Hlocal.
  destruct (getPackagesFromLocal_ok E xs s localReqs s1 Hlocal) as [Hrecs Hheap].
  assert (remove_all (removal_key <$> localReqs) xs = None) as Hrm.
  { apply (remove_all_absent _ xs (removal_key p)); [|done].
    rewrite Hrecs. apply list_elem_of_fmap_2. by apply (local_records_elem E xs r). }
  destruct (for_each_remove reqs localReqs s1 xs) as (s2 & Hrun & Hlog & _).
  { by rewrite Hheap. }
  exists s2. split; [|done].
  unfold getPackages. rewrite bind_run. unfold read at 1.
  by rewrite Hxs, bind_run, Hlocal, bind_run, Hrun, Hrm.
Qed.

Lemma X15_removal_of_absent_name_raises_witness :
  ∃ s', getPackages (Sample.env []) 1%positive
          (Sample.state_with 1%positive ["IPython"; "requests"])
        = (Raise ValueError, s')
        ∧ net_log s' = [].
Proof.
  eapply (X15_removal_of_absent_name_raises (Sample.env []) 1%positive
            (Sample.state_with 1%positive ["IPython"; "requests"])
            (Sample.state_with 1%positive ["IPython"; "requests"])
            ["IPython"; "requests"] "IPython").
  - reflexivity.
  - left.
  - vm_compute. reflexivity.
  - vm_compute. intros H.
    repeat (apply elem_of_cons in H as [H|H]; [discriminate H|]).
    by apply elem_of_nil in H.
  - vm_compute. reflexivity.
Defined.

(** X16. The removals done before the one that raises stay: when the
    records [before] are removed without fault and the lower-case name of
    the next record is not in what is left, [getPackages] raises
    [ValueError] and the caller's list is the list without the names of
    [before]. *)
Theorem X16_failed_removal_leaves_earlier_ones
    (E : Env) (reqs : loc) (s s1 : State) (xs ys : list string)
    (before after : list PackageInfo) (bad : PackageInfo) :
  heap s !! reqs = Some xs →
  getPackagesFromLocal E xs s = (Ok (before ++ bad :: after), s1) →
  remove_all (Str.lower ∘ name <$> before) xs = Some ys →
  Str.lower (name bad) ∉ ys →
  getPackages E reqs s
  = (Raise ValueError, mkState (<[reqs := ys]> (heap s)) (net_log s1)).
Proof.
  intros Hxs Hlocal Hrm Hbad.
  destruct (getPackagesFromLocal_ok E xs s _ s1 Hlocal) as [_ Hheap].
  destruct (for_each_remove reqs before s1 xs) as (s2 & Hrun & Hlog & Hs2).
  { by rewrite Hheap. }
  change (removal_key <$> before) with (Str.lower ∘ name <$> before) in *.
  rewrite Hrm in Hrun. specialize (Hs2 ys Hrm). rewrite Hheap in Hs2.
  assert (s2 = mkState (<[reqs := ys]> (heap s)) (net_log s1)) as ->.
  { destruct s2. simpl in *. by subst. }
  unfold getPackages. rewrite bind_run. unfold read at 1.
  rewrite Hxs, bind_run, Hlocal, bind_run, for_each_app, bind_run, Hrun.
  simpl for_each. rewrite bind_run. unfold remove at 1. rewrite bind_run.
  unfold read at 1. simpl heap. rewrite lookup_insert_eq.
  by rewrite (list_remove_absent _ ys Hbad).
Qed.

Lemma X16_failed_removal_leaves_earlier_ones_witness :
  getPackages (Sample.env []) 1%positive
    (Sample.state_with 1%positive ["six"; "IPython"; "requests"])
  = (Raise ValueError,
     mkState (<[1%positive := ["IPython"; "requests"] ]>
                (heap (Sample.state_with 1%positive ["six"; "IPython"; "requests"])))
       (net_log (Sample.state_with 1%positive ["six"; "IPython"; "requests"]))).
Proof.
  eapply (X16_failed_removal_leaves_earlier_ones (Sample.env []) 1%positive
            (Sample.state_with 1%positive ["six"; "IPython"; "requests"])
            (Sample.state_with 1%positive ["six"; "IPython"; "requests"])
            ["six"; "IPython"; "requests"] ["IPython"; "requests"]
            [ {| name := "six"; version := PStr "1.16.0"; namever := "six-1.16.0";
                 home_page := PStr "UNKNOWN"; author := PStr "UNKNOWN";
                 size := 0; license := PStr "MIT" |} ]
            []).
  - reflexivity.
  - vm_compute. reflexivity.
  - vm_compute. reflexivity.
  - vm_compute. intros H.
    repeat (apply elem_of_cons in H as [H|H]; [discriminate H|]).
    by apply elem_of_nil in H.
Defined.

(** X17. The removals come before the remote resolver: when the remote
    resolver raises, [getPackages] raises the same exception and the caller's
    list has already lost the names that resolved locally. *)
Theorem X17_remote_failure_after_removals
    (E : Env) (reqs : loc) (s s1 s2 : State) (xs xs' : list string)
    (localReqs : list PackageInfo) (e : exn) :
  heap s !! reqs = Some xs →
  getPackagesFromLocal E xs s = (Ok localReqs, s1) →
  remove_all (Str.lower ∘ name <$> localReqs) xs = Some xs' →
  packageInfoFromPypi E xs' (mkState (<[reqs := xs']> (heap s)) (net_log s1))
  = (Raise e, s2) →
  getPackages E reqs s = (Raise e, s2)
  ∧ heap s2 = <[reqs := xs']> (heap s).
Proof.
  intros Hxs Hlocal Hrm Hpypi. split.
  - rewrite (getPackages_removal_ok E reqs s xs localReqs s1 xs' Hxs Hlocal Hrm).
    by rewrite bind_run, Hpypi.
  - pose proof (pypi_loop_frame E xs' []
                  (mkState (<[reqs := xs']> (heap s)) (net_log s1))) as H.
    unfold packageInfoFromPypi in Hpypi. by rewrite Hpypi in H.
Qed.

Lemma X17_remote_failure_after_removals_witness :
  getPackages (Sample.env []) 1%positive
    (Sample.state_with 1%positive ["six"; "nosuchpkg"; "flask"])
  = (Raise JSONDecodeError,
     mkState {[ 1%positive := ["nosuchpkg"; "flask"] ]} [pypi_url "nosuchpkg"]).
Proof.
  eapply (X17_remote_failure_after_removals (Sample.env []) 1%positive
            (Sample.state_with 1%positive ["six"; "nosuchpkg"; "flask"])).
  - reflexivity.
  - vm_compute. reflexivity.
  - vm_compute. reflexivity.
  - vm_compute. reflexivity.
Defined.

(** X18. When the local resolver raises, [getPackages] raises the same
    exception and the store is as it was: the caller's list is untouched. *)
Theorem X18_local_failure_leaves_list
    (E : Env) (reqs : loc) (s s1 : State) (xs : list string) (e : exn) :
  heap s !! reqs = Some xs →
  getPackagesFromLocal E xs s = (Raise e, s1) →
  getPackages E reqs s = (Raise e, s1) ∧ heap s1 = heap s.
Proof.
  intros Hxs Hlocal. split.
  - by apply (getPackages_local_raises E reqs s xs).
  - destruct (local_loop_frame E xs [] s) as [H _].
    unfold getPackagesFromLocal in Hlocal. by rewrite Hlocal in H.
Qed.

Lemma X18_local_failure_leaves_list_witness :
  getPackages (Sample.env []) 1%positive
    (Sample.state_with 1%positive ["six"; "hollow"; "flask"])
  = (Raise ConnectionError,
     mkState {[ 1%positive := ["six"; "hollow"; "flask"] ]} [pypi_url "hollow"]).
Proof.
  eapply (X18_local_failure_leaves_list (Sample.env []) 1%positive
            (Sample.state_with 1%positive ["six"; "hollow"; "flask"])).
  - reflexivity.
  - vm_compute. reflexivity.
Defined.

(** X19. An entry with an upper-case letter is never removed: when
    [getPackages] returns, the entry is still in the caller's list and has
    been looked up at the registry, whether or not it resolved locally. *)
Theorem X19_upper_case_entries_go_remote
    (E : Env) (reqs : loc) (s s' : State) (xs : list string) (r : string)
    (out : list PackageInfo) :
  heap s !! reqs = Some xs →
  r ∈ xs →
  Str.has_upper r = true →
  getPackages E reqs s = (Ok out, s') →
  (∃ xs', heap s' !! reqs = Some xs' ∧ r ∈ xs')
  ∧ (∃ q, q ∈ out ∧ pypi_outcome E r = Ok q)
  ∧ pypi_url r ∈ net_log s'.
Proof.
  intros Hxs Hin Hup Hrun.
  apply getPackages_ok_inv with (xs := xs) in Hrun
    as (localReqs & s1 & xs' & onlineReqs & _ & Hrm & Hpypi & ->); [|done].
  assert (r ∈ xs') as Hin'.
  { apply (remove_all_keeps _ xs xs' r Hrm); [|done].
    intros H. apply list_elem_of_fmap in H as (p' & -> & _).
    by apply (upper_is_no_removal_key _ p' Hup). }
  apply packageInfoFromPypi_ok in Hpypi as (_ & Hall & Hheap & Hlog).
  split_and!.
  - exists xs'. by rewrite Hheap; simpl; rewrite lookup_insert_eq.
  - apply list_elem_of_lookup in Hin' as [i Hi].
    destruct (Forall2_lookup_l _ _ _ _ _ Hall Hi) as (q & Hq & Hout).
    exists q. split; [|done].
    apply elem_of_app. right. by apply list_elem_of_lookup_2 in Hq.
  - rewrite Hlog. apply elem_of_app. right. simpl. by apply list_elem_of_fmap_2.
Qed.

Lemma X19_upper_case_entries_go_remote_witness :
  (∃ xs', heap (mkState {[ 1%positive := ["Flask"] ]} [pypi_url "Flask"]) !! 1%positive
          = Some xs' ∧ "Flask" ∈ xs')
  ∧ (∃ q, q ∈ [ {| name := "six"; version := PStr "1.16.0"; namever := "six-1.16.0";
                   home_page := PStr "UNKNOWN"; author := PStr "UNKNOWN";
                   size := 0; license := PStr "MIT" |};
                {| name := "Flask"; version := PStr "2.31.0"; namever := "Flask 2.31.0";
                   home_page := PStr "https://example.org"; author := PStr "A. Author";
                   size := 62574; license := PStr "Apache Software License" |} ]
          ∧ pypi_outcome (Sample.env []) "Flask" = Ok q)
  ∧ pypi_url "Flask" ∈ net_log (mkState {[ 1%positive := ["Flask"] ]} [pypi_url "Flask"]).
Proof.
  eapply (X19_upper_case_entries_go_remote (Sample.env []) 1%positive
            (Sample.state_with 1%positive ["six"; "Flask"]) _ ["six"; "Flask"] "Flask").
  - reflexivity.
  - right. left.
  - reflexivity.
  - vm_compute. reflexivity.
Defined.

(** ** Self-metadata reader *)

(** X20. A [setup.cfg] whose [metadata] section (or whose defaults) has a
    [license] option decides alone: the attribute dictionary of the section
    proxy is returned and [pyproject.toml] is not looked at. *)
Theorem X20_setup_cfg_comes_first
    (E : Env) (config : ConfigParser) (sec : list (string * string)) :
  setup_cfg E = Some (Ok config) →
  assoc "metadata" (cfg_sections config) = Some sec →
  has_option config sec "license" = true →
  getClassifiersLicense E = Ok (ProxyDict config "metadata").
Proof.
  intros Hcfg Hsec Hopt. unfold getClassifiersLicense, from_setup_cfg.
  rewrite Hcfg. change (Ok config ≫= ?f) with (f config). cbv beta.
  by rewrite Hsec, Hopt.
Qed.

Lemma X20_setup_cfg_comes_first_witness :
  getClassifiersLicense
    (Demo.with_project_files (Some (Ok Demo.setup_with_license)) (Some Sample.both_tables))
  = Ok (ProxyDict Demo.setup_with_license "metadata").
Proof.
  eapply (X20_setup_cfg_comes_first
            (Demo.with_project_files (Some (Ok Demo.setup_with_license))
               (Some Sample.both_tables))); reflexivity.
Defined.

(** X21. A [setup.cfg] that exists and has no [metadata] section makes
    [getClassifiersLicense] raise [KeyError] for [metadata], whatever
    [pyproject.toml] holds. *)
Theorem X21_setup_cfg_without_metadata_raises (E : Env) (config : ConfigParser) :
  setup_cfg E = Some (Ok config) →
  assoc "metadata" (cfg_sections config) = None →
  getClassifiersLicense E = Raise (KeyError "metadata").
Proof.
  intros Hcfg Hsec. unfold getClassifiersLicense, from_setup_cfg.
  rewrite Hcfg. change (Ok config ≫= ?f) with (f config). cbv beta.
  by rewrite Hsec.
Qed.

Lemma X21_setup_cfg_without_metadata_raises_witness :
  getClassifiersLicense
    (Demo.with_project_files (Some (Ok Demo.setup_without_metadata))
       (Some Sample.both_tables))
  = Raise (KeyError "metadata").
Proof.
  eapply (X21_setup_cfg_without_metadata_raises
            (Demo.with_project_files (Some (Ok Demo.setup_without_metadata))
               (Some Sample.both_tables))); reflexivity.
Defined.

(** X22. The default, no classifiers and the empty license, is returned when
    [setup.cfg] declares no license and [pyproject.toml] is absent, or has a
    [tool] table with neither [poetry] nor [flit] and no [project] table. *)
Theorem X22_default_metadata (E : Env) :
  no_setup_license E →
  (pyproject_toml E = None
   ∨ ∃ pyproject tool,
       pyproject_is E pyproject
       ∧ assoc "tool" pyproject = Some (PDict tool)
       ∧ assoc "poetry" tool = None
       ∧ assoc "flit" tool = None
       ∧ assoc "project" pyproject = None) →
  getClassifiersLicense E
  = Ok (Plain (PDict [("classifiers", PList []); ("license", PStr "")])).
Proof.
  intros Hsetup Hpy. rewrite (getClassifiersLicense_pyproject E Hsetup).
  destruct Hpy as [Hnone|(pyproject & tool & Hpy & Htool & Hpoetry & Hflit & Hproject)].
  - unfold from_pyproject. by rewrite Hnone.
  - rewrite (from_pyproject_tool E pyproject Hpy).
    assert (getitem (PDict pyproject) "tool" = Ok (PDict tool)) as ->
      by (unfold getitem; by rewrite Htool).
    change (Ok (PDict tool) ≫= ?f) with (f (PDict tool)). cbv beta.
    unfold py_contains. rewrite Hpoetry, Hflit, Hproject. reflexivity.
Qed.

Lemma X22_default_metadata_witness :
  getClassifiersLicense
    (Demo.with_project_files None
       (Some [("tool", PDict [("black", PDict [("line-length", PInt 100)])])]))
  = Ok (Plain (PDict [("classifiers", PList []); ("license", PStr "")])).
Proof.
  apply X22_default_metadata.
  - left. reflexivity.
  - right. eexists _, _. split_and!; [eexists; split; reflexivity|reflexivity..].
Defined.

(** ** The project's own license *)

(** X23. When [setup.cfg] declares a license, [getMyPackageLicense] does not
    return it: the dictionary it gets has neither [classifiers] nor
    [license], so the answer is whatever [input] gives. *)
Theorem X23_setup_cfg_license_is_asked_for
    (E : Env) (input : string → result string) (config : ConfigParser)
    (sec : list (string * string)) :
  setup_cfg E = Some (Ok config) →
  assoc "metadata" (cfg_sections config) = Some sec →
  has_option config sec "license" = true →
  getMyPackageLicense E input = input "Enter the project license".
Proof.
  intros Hcfg Hsec Hopt. unfold getMyPackageLicense.
  assert (getClassifiersLicense E = Ok (ProxyDict config "metadata")) as ->.
  { unfold getClassifiersLicense, from_setup_cfg.
    rewrite Hcfg. change (Ok config ≫= ?f) with (f config). cbv beta.
    by rewrite Hsec, Hopt. }
  reflexivity.
Qed.

Lemma X23_setup_cfg_license_is_asked_for_witness :
  getMyPackageLicense
    (Demo.with_project_files (Some (Ok Demo.setup_with_license)) None) Demo.answer
  = Ok "Apache-2.0".
Proof.
  eapply (X23_setup_cfg_license_is_asked_for
            (Demo.with_project_files (Some (Ok Demo.setup_with_license)) None)
            Demo.answer); reflexivity.
Defined.

(** X24. With a [setup.cfg] that declares no license, or none, and no
    [pyproject.toml], [getMyPackageLicense] returns the empty string and
    [input] is not called. *)
Theorem X24_no_project_file_gives_empty_license
    (E : Env) (input : string → result string) :
  no_setup_license E →
  pyproject_toml E = None →
  getMyPackageLicense E input = Ok "".
Proof.
  intros Hsetup Hnone. unfold getMyPackageLicense.
  rewrite (getClassifiersLicense_pyproject E Hsetup).
  unfold from_pyproject. rewrite Hnone. reflexivity.
Qed.

Lemma X24_no_project_file_gives_empty_license_witness :
  getMyPackageLicense (Demo.with_project_files None None)
    (λ _, Raise (OtherError "EOFError"))
  = Ok "".
Proof.
  apply X24_no_project_file_gives_empty_license; [left|]; reflexivity.
Defined.

(** X25. When the table that [getClassifiersLicense] returns has classifiers
    that give a license, that license is the answer: the [license] key is
    not read and [input] is not called. *)
Theorem X25_classifiers_come_before_license_key
    (E : Env) (input : string → result string) (kvs : list (string * PyVal))
    (classifiers : PyVal) (vals : list string) :
  getClassifiersLicense E = Ok (Plain (PDict kvs)) →
  assoc "classifiers" kvs = Some classifiers →
  iter_strings classifiers = Ok vals →
  licenseFromClassifierlist vals ≠ "UNKNOWN" →
  getMyPackageLicense E input = Ok (licenseFromClassifierlist vals).
Proof.
  intros Hmeta Hcls Hvals Hlabel. unfold getMyPackageLicense. rewrite Hmeta.
  change (Ok (Plain (PDict kvs)) ≫= ?f) with (f (Plain (PDict kvs))). cbv beta.
  unfold meta_get. rewrite Hcls.
  change (Ok classifiers ≫= ?f) with (f classifiers). cbv beta. rewrite Hvals.
  change (Ok vals ≫= ?f) with (f vals). cbv beta zeta.
  by rewrite decide_True.
Qed.

Lemma X25_classifiers_come_before_license_key_witness :
  getMyPackageLicense
    (Demo.with_project_files None
       (Some [("tool",
               PDict [("poetry",
                       PDict [("license", PStr "GPL-3.0-only");
                              ("classifiers",
                               PList [PStr "License :: OSI Approved :: MIT License"])])])]))
    Demo.answer
  = Ok (licenseFromClassifierlist ["License :: OSI Approved :: MIT License"]).
Proof.
  eapply X25_classifiers_come_before_license_key;
    [vm_compute; reflexivity | reflexivity | reflexivity | vm_compute; discriminate].
Defined.

(** X26. When the classifiers of the returned table give "UNKNOWN" and the
    table has a [license] key, the answer is the text of that value: the
    string itself, the [text] of a table that has one, and else the printed
    form of the value, a table without [text] included. *)
Theorem X26_license_key_forms
    (E : Env) (input : string → result string) (kvs : list (string * PyVal))
    (vals : list string) (lice : PyVal) :
  getClassifiersLicense E = Ok (Plain (PDict kvs)) →
  iter_strings (default (PList []) (assoc "classifiers" kvs)) = Ok vals →
  licenseFromClassifierlist vals = "UNKNOWN" →
  assoc "license" kvs = Some lice →
  (∀ text, lice = PStr text → getMyPackageLicense E input = Ok text)
  ∧ (∀ sub text, lice = PDict sub → assoc "text" sub = Some (PStr text) →
       getMyPackageLicense E input = Ok text)
  ∧ (∀ sub, lice = PDict sub → assoc "text" sub = None →
       getMyPackageLicense E input = Ok (format_value E lice)).
Proof.
  intros Hmeta Hvals Hlabel Hlice.
  assert (getMyPackageLicense E input
          = match lice with
            | PDict sub =>
                match assoc "text" sub with
                | Some PNone | None => Ok (format_str E lice)
                | Some text => Ok (format_str E text)
                end
            | _ => Ok (format_str E lice)
            end) as Hrun.
  { unfold getMyPackageLicense. rewrite Hmeta.
    change (Ok (Plain (PDict kvs)) ≫= ?f) with (f (Plain (PDict kvs))). cbv beta.
    assert (meta_get (Plain (PDict kvs)) "classifiers" (PList [])
            = Ok (default (PList []) (assoc "classifiers" kvs))) as ->
      by (unfold meta_get; by destruct (assoc "classifiers" kvs)).
    change (Ok ?c ≫= ?f) with (f c). cbv beta. rewrite Hvals.
    change (Ok vals ≫= ?f) with (f vals). cbv beta zeta.
    rewrite decide_False by (intros H; by apply H).
    unfold meta_contains, py_contains. rewrite Hlice.
    change (bool_decide (is_Some (Some lice))) with true.
    change (Ok true ≫= ?f) with (f true). cbv beta iota.
    unfold meta_getitem, getitem. rewrite Hlice. reflexivity. }
  rewrite Hrun. split_and!.
  - by intros text ->.
  - intros sub text -> Htext. by rewrite Htext.
  - intros sub -> Htext. by rewrite Htext.
Qed.

Lemma X26_license_key_forms_witness :
  getMyPackageLicense (Demo.with_project_files None (Some Sample.both_tables))
    Demo.answer = Ok "GPL-3.0-only"
  ∧ getMyPackageLicense
      (Demo.with_project_files None
         (Some [("project", PDict [("license", PDict [("file", PStr "LICENSE")])]);
                ("tool", PDict [])]))
      Demo.answer = Ok "<repr>".
Proof.
  split.
  - eapply (proj1 (X26_license_key_forms
                     (Demo.with_project_files None (Some Sample.both_tables))
                     Demo.answer _ [] (PStr "GPL-3.0-only") eq_refl eq_refl eq_refl eq_refl)).
    reflexivity.
  - eapply (proj2 (proj2 (X26_license_key_forms
                     (Demo.with_project_files None
                        (Some [("project", PDict [("license", PDict [("file", PStr "LICENSE")])]);
                               ("tool", PDict [])]))
                     Demo.answer _ [] (PDict [("file", PStr "LICENSE")])
                     eq_refl eq_refl eq_refl eq_refl))); reflexivity.
Defined.

(** X27. When the classifiers of the returned table give "UNKNOWN" and the
    table has no [license] key, the answer is whatever [input] gives. *)
Theorem X27_no_license_key_asks
    (E : Env) (input : string → result string) (kvs : list (string * PyVal))
    (vals : list string) :
  getClassifiersLicense E = Ok (Plain (PDict kvs)) →
  iter_strings (default (PList []) (assoc "classifiers" kvs)) = Ok vals →
  licenseFromClassifierlist vals = "UNKNOWN" →
  assoc "license" kvs = None →
  getMyPackageLicense E input = input "Enter the project license".
Proof.
  intros Hmeta Hvals Hlabel Hlice.
  unfold getMyPackageLicense. rewrite Hmeta.
  change (Ok (Plain (PDict kvs)) ≫= ?f) with (f (Plain (PDict kvs))). cbv beta.
  assert (meta_get (Plain (PDict kvs)) "classifiers" (PList [])
          = Ok (default (PList []) (assoc "classifiers" kvs))) as ->
    by (unfold meta_get; by destruct (assoc "classifiers" kvs)).
  change (Ok ?c ≫= ?f) with (f c). cbv beta. rewrite Hvals.
  change (Ok vals ≫= ?f) with (f vals). cbv beta zeta.
  rewrite decide_False by (intros H; by apply H).
  unfold meta_contains, py_contains. rewrite Hlice. reflexivity.
Qed.

Lemma X27_no_license_key_asks_witness :
  getMyPackageLicense
    (Demo.with_project_files None
       (Some [("tool", PDict [("poetry", PDict [("name", PStr "demo");
                                                ("classifiers", PList [PStr "Typing :: Typed"])])])]))
    Demo.answer
  = Ok "Apache-2.0".
Proof.
  eapply (X27_no_license_key_asks
            (Demo.with_project_files None
               (Some [("tool", PDict [("poetry", PDict [("name", PStr "demo");
                                                        ("classifiers", PList [PStr "Typing :: Typed"])])])]))
            Demo.answer); reflexivity.
Defined.

(** X28. When the value that [getClassifiersLicense] returns is not a table,
    as when [tool.poetry] is a string, [getMyPackageLicense] raises
    [AttributeError]. *)
Theorem X28_metadata_that_is_no_table_raises
    (E : Env) (input : string → result string) (v : PyVal) :
  getClassifiersLicense E = Ok (Plain v) →
  (∀ kvs, v ≠ PDict kvs) →
  getMyPackageLicense E input = Raise AttributeError.
Proof.
  intros Hmeta Hv. unfold getMyPackageLicense. rewrite Hmeta.
  change (Ok (Plain v) ≫= ?f) with (f (Plain v)). cbv beta.
  destruct v as [| | | | |kvs]; try reflexivity. by destruct (Hv kvs).
Qed.

Lemma X28_metadata_that_is_no_table_raises_witness :
  getMyPackageLicense
    (Demo.with_project_files None (Some [("tool", PDict [("poetry", PStr "1.8")])]))
    Demo.answer
  = Raise AttributeError.
Proof.
  eapply (X28_metadata_that_is_no_table_raises
            (Demo.with_project_files None (Some [("tool", PDict [("poetry", PStr "1.8")])]))
            Demo.answer (PStr "1.8")); [reflexivity|discriminate].
Defined.
